(** * Flask-Admin: a shallow embedding of the admin views and of the
      MongoAlchemy datastore, with the properties the specification states.

    The development follows the two source modules:
    - [flask_admin/__init__.py]: [create_admin_blueprint] and its five views
      over a SQLAlchemy session;
    - [flask_admin/datastore/mongoalchemy.py]: [MongoAlchemyDatastore],
      [MongoAlchemyPagination] and the model-to-form conversion.

    Libraries the code calls (Flask, SQLAlchemy, WTForms, MongoAlchemy, bson)
    are interfaces here: small records and type classes that say what a call
    returns, with reference instances used to run the code on examples. *)

From Stdlib Require Import ZArith List String Ascii Bool Lia.
From stdpp Require Import base option list gmap strings sorting.

Local Open Scope string_scope.
Local Open Scope Z_scope.

(** ** Python values, exceptions and a few builtins *)

Inductive PyVal : Type :=
| PyNone
| PyBool (b : bool)
| PyInt (n : Z)
| PyStr (s : string).

Inductive PyExn : Type :=
| ValueError
| KeyError
| TypeError
| AttributeError
| MultipleResultsFound
| BadValueException.

(** The outcome of a call: a value, or an exception that propagates. *)
Inductive Result (A : Type) : Type :=
| Ok (a : A)
| Raise (e : PyExn).

Arguments Ok {A} a.
Arguments Raise {A} e.

Definition is_ok {A} (r : Result A) : bool :=
  match r with Ok _ => true | Raise _ => false end.

(** Truthiness of an optional integer: [None] and [0] are false. *)
Definition truthy (o : option Z) : bool :=
  match o with
  | None => false
  | Some n => negb (n =? 0)
  end.

(** Plain numerals: the value of a non-empty run of ASCII decimal digits;
    none for the empty text and for text with any other character. *)
Definition digit_of (c : ascii) : option Z :=
  let n := nat_of_ascii c in
  if ((48 <=? n)%nat && (n <=? 57)%nat) then Some (Z.of_nat (n - 48)) else None.

Fixpoint digits_value (acc : Z) (s : string) : option Z :=
  match s with
  | EmptyString => Some acc
  | String c s' =>
      match digit_of c with
      | Some d => digits_value (10 * acc + d) s'
      | None => None
      end
  end.

Definition unsigned_value (s : string) : option Z :=
  match s with
  | EmptyString => None
  | _ => digits_value 0 s
  end.

(** [int(s)] on a text argument. A plain numeral, a non-empty run of ASCII
    decimal digits, is read as the number it writes. What [int] makes of any
    other text is not the same on every interpreter: blanks around the
    digits and a sign are read, but which characters are blanks and whether
    blanks may follow the sign has changed; later interpreters read an
    underscore between digits and refuse numerals of more than 4300 digits;
    and on text outside ASCII the answer follows the interpreter's Unicode
    tables, which count further decimal digits and blanks. That part is the
    interface [int_of_other]. *)
Class PyInterpreter : Type := {
  int_of_other : string -> Result Z
}.

Definition py_int `{PyInterpreter} (s : string) : Result Z :=
  match unsigned_value s with
  | Some n => if (String.length s <=? 4300)%nat then Ok n else int_of_other s
  | None => int_of_other s
  end.

(** [dict(pairs)]: a later pair with the same key replaces an earlier one. *)
Definition dict_of_pairs {V} (l : list (string * V)) : gmap string V :=
  foldl (fun m kv => <[kv.1 := kv.2]> m) ∅ l.

(** [sorted(names)]: strings in lexicographic order. *)
Definition str_le (a b : string) : Prop := String.leb a b = true.

#[global] Instance str_le_dec a b : Decision (str_le a b).
Proof. unfold str_le. apply _. Defined.

Definition sorted (l : list string) : list string := merge_sort str_le l.

(** A werkzeug [MultiDict] as the pairs in arrival order; [get] answers the
    first value of a key, or the default. *)
Definition MultiDict : Type := list (string * string).

Fixpoint multidict_get (k : string) (default : string) (d : MultiDict) : string :=
  match d with
  | [] => default
  | (k', v) :: d' => if String.eqb k k' then v else multidict_get k default d'
  end.

(** ** Flask: requests, responses, flashed messages *)

Inductive Method : Type := GET | POST | HEAD | OPTIONS.

Record Request : Type := {
  method : Method;                (* request.method *)
  url : string;                   (* request.url *)
  args : MultiDict;               (* request.args, the query string *)
  form : MultiDict;               (* request.form, the posted fields *)
  cookies : MultiDict             (* what the client sent back of the session *)
}.

(** [url_for(endpoint, **values)], kept symbolic: where the blueprint is
    mounted is the application's business. *)
Record Url : Type := url_for {
  url_endpoint : string;
  url_values : list (string * string)
}.

(** ** SQLAlchemy: mapped classes, instances, queries, the session *)

Record Instance : Type := {
  inst_class : string;
  inst_attrs : gmap string PyVal
}.

(** What the admin uses of an object found in [models]: its [__name__],
    whether it is a declarative mapped class, what calling it with no
    argument builds, and how an instance prints under ['%s']. *)
Record ModelClass : Type := {
  __name__ : string;
  is_declarative : bool;
  construct : Instance;
  instance_str : Instance -> string
}.

(** A [Query]: the rows it ranges over and the LIMIT/OFFSET set on it. *)
Record Query : Type := {
  q_rows : list Instance;
  q_limit : option Z;
  q_offset : option Z
}.

Definition query_limit (n : Z) (q : Query) : Query :=
  {| q_rows := q_rows q; q_limit := Some n; q_offset := q_offset q |}.

Definition query_offset (n : Z) (q : Query) : Query :=
  {| q_rows := q_rows q; q_limit := q_limit q; q_offset := Some n |}.

Definition query_all (q : Query) : list Instance :=
  let after := match q_offset q with
               | Some o => drop (Z.to_nat o) (q_rows q)
               | None => q_rows q
               end in
  match q_limit q with
  | Some n => take (Z.to_nat n) after
  | None => after
  end.

Definition query_count (q : Query) : Z := Z.of_nat (length (query_all q)).

(** [.one()]: exactly one row, else [NoResultFound] or
    [MultipleResultsFound]. *)
Inductive OneResult : Type :=
| OneRow (i : Instance)
| NoResultFound
| TooManyRows.

Definition query_one (q : Query) : OneResult :=
  match query_all q with
  | [] => NoResultFound
  | [i] => OneRow i
  | _ => TooManyRows
  end.

(** The session under the views. [session_rows] is what
    [db_session.query(model)] ranges over; [column_matches] is the backend's
    comparison of a column value with a key taken from the URL. *)
Class SessionOps (Sess : Type) : Type := {
  session_rows : Sess -> ModelClass -> list Instance;
  session_add : Instance -> Sess -> Sess;
  session_delete : Instance -> Sess -> Sess;
  session_commit : Sess -> Sess;
  column_matches : PyVal -> string -> bool
}.

Definition row_matches `{SessionOps Sess} (col key : string) (i : Instance) : bool :=
  match inst_attrs i !! col with
  | Some v => column_matches (Sess:=Sess) v key
  | None => false
  end.

Definition query_filter_by `{SessionOps Sess} (col key : string) (q : Query) : Query :=
  {| q_rows := List.filter (row_matches (Sess:=Sess) col key) (q_rows q);
     q_limit := q_limit q; q_offset := q_offset q |}.

(** The calls a view makes on the session, in order. *)
Inductive DbCall : Type :=
| CallQuery (model : string)
| CallAdd (i : Instance)
| CallDelete (i : Instance)
| CallCommit.

(** What a request can change: the session, the record of calls made on it,
    and the messages flashed for the next page, as (category, message). *)
Record World (Sess : Type) : Type := {
  db_session : Sess;
  db_calls : list DbCall;
  flashes : list (string * string)
}.

Arguments db_session {Sess} _.
Arguments db_calls {Sess} _.
Arguments flashes {Sess} _.

(** Computations of a view: a result or an exception, and the new world. *)
Definition M (Sess A : Type) : Type := World Sess -> Result A * World Sess.

#[global] Instance M_ret {Sess} : MRet (M Sess) := fun A a w => (Ok a, w).

#[global] Instance M_bind {Sess} : MBind (M Sess) := fun A B f m w =>
  match m w with
  | (Ok a, w') => f a w'
  | (Raise e, w') => (Raise e, w')
  end.

Definition raise {Sess A} (e : PyExn) : M Sess A := fun w => (Raise e, w).

Definition lift {Sess A} (r : Result A) : M Sess A := fun w => (r, w).

Definition db_query `{SessionOps Sess} (model : ModelClass) : M Sess Query := fun w =>
  (Ok {| q_rows := session_rows (db_session w) model; q_limit := None; q_offset := None |},
   {| db_session := db_session w;
      db_calls := db_calls w ++ [CallQuery (__name__ model)];
      flashes := flashes w |}).

Definition db_add `{SessionOps Sess} (i : Instance) : M Sess unit := fun w =>
  (Ok tt,
   {| db_session := session_add i (db_session w);
      db_calls := db_calls w ++ [CallAdd i];
      flashes := flashes w |}).

Definition db_delete `{SessionOps Sess} (i : Instance) : M Sess unit := fun w =>
  (Ok tt,
   {| db_session := session_delete i (db_session w);
      db_calls := db_calls w ++ [CallDelete i];
      flashes := flashes w |}).

Definition db_commit `{SessionOps Sess} : M Sess unit := fun w =>
  (Ok tt,
   {| db_session := session_commit (db_session w);
      db_calls := db_calls w ++ [CallCommit];
      flashes := flashes w |}).

Definition flash {Sess} (message category : string) : M Sess unit := fun w =>
  (Ok tt,
   {| db_session := db_session w;
      db_calls := db_calls w;
      flashes := flashes w ++ [(category, message)] |}).

(** [flaskext.sqlalchemy.Pagination(query, page, per_page, total, items)]. *)
Record Pagination : Type := {
  pg_query : Query;
  pg_page : Z;
  pg_per_page : Z;
  pg_total : Z;
  pg_items : list Instance
}.

(** ** WTForms, as far as the views use it *)

(** [form_new cls formdata obj] is the call [cls(formdata, obj=obj)];
    [form_validate] answers the verdict together with the form as validation
    leaves it, its fields carrying the messages collected; iterating a form
    yields [form_fields]. *)
Class FormLib (FormClass Form Field : Type) : Type := {
  form_new : FormClass -> option MultiDict -> option Instance -> Form;
  form_validate : Form -> bool * Form;
  form_fields : Form -> list Field;
  is_file_field : Field -> bool
}.

(** Helpers of the package that [flask_admin/__init__.py] calls and does not
    define: they are taken as given. The session handle that
    [_form_for_model] receives is the one session of the [World]. *)
Class AdminHelpers (FormClass Form : Type) : Type := {
  _form_for_model : ModelClass -> bool -> FormClass;
  _populate_model_from_form : Instance -> Form -> Instance;
  _get_pk_name : ModelClass -> string
}.

(** ** flask_admin/__init__.py *)

Section FlaskAdmin.

Context {Sess : Type} `{SessionOps Sess}.
Context {FormClass Form Field : Type} `{FormLib FormClass Form Field}.
Context `{AdminHelpers FormClass Form}.
Context `{PyInterpreter}.

(** Values handed to a template. *)
Inductive CtxVal : Type :=
| CtxStr (s : string)
| CtxNames (l : list string)
| CtxInstance (i : Instance)
| CtxInstances (l : list Instance)
| CtxPagination (p : Pagination)
| CtxForm (f : Form)
| CtxFields (l : list Field)
| CtxHelper (name : string).

(** What a view function returns: a plain string, a rendered template, a
    redirect, or nothing at all when it falls off its end. *)
Inductive Response : Type :=
| Body (s : string)
| Template (name : string) (context : list (string * CtxVal))
| Redirect (location : Url)
| NoResponse.

Definition render_template (name : string) (context : list (string * CtxVal))
  : M Sess Response := mret (Template name context).

Definition redirect (location : Url) : M Sess Response := mret (Redirect location).

(** A view function is called with the variables of its URL rule as keyword
    arguments, in the context of a request. *)
Definition ViewFunc : Type := gmap string string -> Request -> M Sess Response.

(** [def f():], [def f(p):] and [def f(p, q):] under that calling
    convention: a missing or unexpected keyword is a [TypeError]. *)
Definition def0 (body : Request -> M Sess Response) : ViewFunc := fun kwds req =>
  if decide (size kwds = 0%nat) then body req else raise TypeError.

Definition def1 (p : string) (body : string -> Request -> M Sess Response)
  : ViewFunc := fun kwds req =>
  match kwds !! p with
  | Some a => if decide (size kwds = 1%nat) then body a req else raise TypeError
  | None => raise TypeError
  end.

Definition def2 (p q : string)
  (body : string -> string -> Request -> M Sess Response) : ViewFunc := fun kwds req =>
  match kwds !! p, kwds !! q with
  | Some a, Some b =>
      if decide (size kwds = 2%nat) then body a b req else raise TypeError
  | _, _ => raise TypeError
  end.

Definition Decorator : Type := ViewFunc -> ViewFunc.

(** The dummy decorator installed when none is given: its wrapper calls the
    function with the arguments it received. *)
Definition dummy_decorator : Decorator := fun f =>
  let wrapper := fun kwds req => f kwds req in
  wrapper.

Section Views.

(** The names the view closures capture. *)
Variable model_dict : gmap string ModelClass.
Variable form_dict : option (gmap string FormClass).
Variable list_view_pagination : Z.
Variable view_decorator : Decorator.

(** [admin_blueprint.form_dict[model_name]] *)
Definition form_dict_item (model_name : string) : M Sess FormClass :=
  match form_dict with
  | None => raise AttributeError
  | Some d =>
      match d !! model_name with
      | Some f => mret f
      | None => raise KeyError
      end
  end.

Definition admin_models : CtxVal := CtxNames (sorted (map fst (map_to_list model_dict))).

Definition index (req : Request) : M Sess Response :=
  render_template "admin/index.html" [("admin_models", admin_models)].

Definition list_view (model_name : string) (req : Request) : M Sess Response :=
  match model_dict !! model_name with
  | None => mret (Body (model_name +:+ " cannot be accessed through this admin page"))
  | Some model =>
      model_instances ← db_query model;
      let per_page := list_view_pagination in
      page ← lift (py_int (multidict_get "page" "1" (args req)));
      let offset := (page - 1) * per_page in
      let items := query_all (query_offset offset (query_limit per_page model_instances)) in
      let pagination :=
        {| pg_query := model_instances; pg_page := page; pg_per_page := per_page;
           pg_total := query_count model_instances; pg_items := items |} in
      render_template "admin/list.html"
        [("admin_models", admin_models);
         ("_get_pk_value", CtxHelper "_get_pk_value");
         ("model_instances", CtxInstances (pg_items pagination));
         ("model_name", CtxStr model_name);
         ("pagination", CtxPagination pagination)]
  end.

Definition edit (model_name model_key : string) (req : Request) : M Sess Response :=
  match model_dict !! model_name with
  | None => mret (Body (model_name +:+ " cannot be accessed through this admin page"))
  | Some model =>
      model_form ← form_dict_item model_name;
      let pk := _get_pk_name model in
      q ← db_query model;
      match query_one (query_filter_by (Sess:=Sess) pk model_key q) with
      | NoResultFound => mret (Body (model_name +:+ " not found: " +:+ model_key))
      | TooManyRows => raise MultipleResultsFound
      | OneRow model_instance =>
          match method req with
          | GET =>
              let form_ := form_new model_form None (Some model_instance) in
              let has_file_field := List.filter is_file_field (form_fields form_) in
              render_template "admin/edit.html"
                [("admin_models", admin_models);
                 ("model_instance", CtxInstance model_instance);
                 ("model_name", CtxStr model_name);
                 ("form", CtxForm form_);
                 ("has_file_field", CtxFields has_file_field)]
          | POST =>
              let form_ := form_new model_form (Some (form req)) (Some model_instance) in
              let has_file_field := List.filter is_file_field (form_fields form_) in
              let (valid, form_) := form_validate form_ in
              if valid then
                let model_instance := _populate_model_from_form model_instance form_ in
                db_add model_instance;;
                db_commit;;
                flash (model_name +:+ " updated: " +:+ instance_str model model_instance)
                      "success";;
                redirect (url_for ".list_view" [("model_name", model_name)])
              else
                flash ("There was an error processing your form. This "
                         +:+ model_name +:+ " has not been saved.") "error";;
                render_template "admin/edit.html"
                  [("admin_models", admin_models);
                   ("model_instance", CtxInstance model_instance);
                   ("model_name", CtxStr model_name);
                   ("form", CtxForm form_);
                   ("has_file_field", CtxFields has_file_field)]
          | _ => mret NoResponse
          end
      end
  end.

Definition add (model_name : string) (req : Request) : M Sess Response :=
  match model_dict !! model_name with
  | None => mret (Body (model_name +:+ " cannot be accessed through this admin page"))
  | Some model =>
      model_form ← form_dict_item model_name;
      let model_instance := construct model in
      match method req with
      | GET =>
          let form_ := form_new model_form None None in
          render_template "admin/add.html"
            [("admin_models", admin_models);
             ("model_name", CtxStr model_name);
             ("form", CtxForm form_)]
      | POST =>
          let form_ := form_new model_form (Some (form req)) None in
          let (valid, form_) := form_validate form_ in
          if valid then
            let model_instance := _populate_model_from_form model_instance form_ in
            db_add model_instance;;
            db_commit;;
            flash (model_name +:+ " added: " +:+ instance_str model model_instance)
                  "success";;
            redirect (url_for ".list_view" [("model_name", model_name)])
          else
            flash ("There was an error processing your form. This "
                     +:+ model_name +:+ " has not been saved.") "error";;
            render_template "admin/add.html"
              [("admin_models", admin_models);
               ("model_name", CtxStr model_name);
               ("form", CtxForm form_)]
      | _ => mret NoResponse
      end
  end.

Definition delete (model_name model_key : string) (req : Request) : M Sess Response :=
  match model_dict !! model_name with
  | None => mret (Body (model_name +:+ " cannot be accessed through this admin page"))
  | Some model =>
      let pk := _get_pk_name model in
      q ← db_query model;
      match query_one (query_filter_by (Sess:=Sess) pk model_key q) with
      | NoResultFound => mret (Body (model_name +:+ " not found: " +:+ model_key))
      | TooManyRows => raise MultipleResultsFound
      | OneRow model_instance =>
          db_delete model_instance;;
          db_commit;;
          flash (model_name +:+ " deleted: " +:+ instance_str model model_instance)
                "success";;
          redirect (url_for ".list_view" [("model_name", model_name)])
      end
  end.

Definition create_index_view : ViewFunc := view_decorator (def0 index).

Definition create_list_view : ViewFunc := view_decorator (def1 "model_name" list_view).

Definition create_edit_view : ViewFunc :=
  view_decorator (def2 "model_name" "model_key" edit).

Definition create_add_view : ViewFunc := view_decorator (def1 "model_name" add).

Definition create_delete_view : ViewFunc :=
  view_decorator (def2 "model_name" "model_key" delete).

End Views.

End FlaskAdmin.

(** *** The blueprint *)

Section Blueprint.

Context {Sess : Type} `{SessionOps Sess}.
Context {FormClass Form Field : Type} `{FormLib FormClass Form Field}.
Context `{AdminHelpers FormClass Form}.
Context `{PyInterpreter}.

Record UrlRule : Type := {
  rule : string;
  endpoint : string;
  view_func : ViewFunc (Sess:=Sess) (Form:=Form) (Field:=Field);
  methods : option (list Method)
}.

Record Blueprint : Type := {
  bp_name : string;
  bp_form_dict : option (gmap string FormClass);
  url_rules : list UrlRule
}.

Definition add_url_rule (r e : string)
  (f : ViewFunc (Sess:=Sess) (Form:=Form) (Field:=Field))
  (ms : option (list Method)) (bp : Blueprint) : Blueprint :=
  {| bp_name := bp_name bp;
     bp_form_dict := bp_form_dict bp;
     url_rules := url_rules bp ++ [{| rule := r; endpoint := e; view_func := f; methods := ms |}] |}.

Definition view_functions (bp : Blueprint)
  : gmap string (ViewFunc (Sess:=Sess) (Form:=Form) (Field:=Field)) :=
  dict_of_pairs (map (fun r => (endpoint r, view_func r)) (url_rules bp)).

(** The [models] argument: a module, seen as its [__dict__], or an iterable. *)
Inductive Models : Type :=
| ModelsModule (dict : gmap string ModelClass)
| ModelsIterable (l : list ModelClass).

Definition discover (models : Models) : gmap string ModelClass :=
  match models with
  | ModelsModule d =>
      filter (fun kv => is_declarative kv.2 = true /\ kv.1 <> "Base") d
  | ModelsIterable l =>
      dict_of_pairs
        (map (fun model => (__name__ model, model))
           (List.filter
              (fun model => is_declarative model && negb (String.eqb (__name__ model) "Base"))
              l))
  end.

(** The loop that lets [model_forms] replace generated forms, for the names
    that are registered only. *)
Definition override_forms (model_forms form_dict : gmap string FormClass)
  : gmap string FormClass :=
  foldl (fun fd mf => if decide (is_Some (fd !! mf.1)) then <[mf.1 := mf.2]> fd else fd)
        form_dict (map_to_list model_forms).

(** [admin_blueprint.form_dict]: set only when some model was found, to a
    generated form per model, then overridden from [model_forms]. *)
Definition build_form_dict (model_dict : gmap string ModelClass)
  (model_forms : option (gmap string FormClass)) (exclude_pks : bool)
  : option (gmap string FormClass) :=
  let model_forms := default ∅ model_forms in
  if decide (size model_dict = 0%nat) then None
  else Some (override_forms model_forms
               ((fun v => _form_for_model v exclude_pks) <$> model_dict)).

Definition create_admin_blueprint (models : Models) (name : string)
  (model_forms : option (gmap string FormClass)) (exclude_pks : bool)
  (list_view_pagination : Z)
  (view_decorator : option (Decorator (Sess:=Sess) (Form:=Form) (Field:=Field)))
  : Blueprint :=
  let model_dict := discover models in
  let form_dict := build_form_dict model_dict model_forms exclude_pks in
  let view_decorator := default dummy_decorator view_decorator in
  let admin_blueprint :=
    {| bp_name := name; bp_form_dict := form_dict; url_rules := [] |} in
  add_url_rule "/add/<model_name>/" "add"
    (create_add_view model_dict form_dict view_decorator) (Some [GET; POST])
    (add_url_rule "/delete/<model_name>/<model_key>/" "delete"
      (create_delete_view model_dict view_decorator) None
      (add_url_rule "/edit/<model_name>/<model_key>/" "edit"
        (create_edit_view model_dict form_dict view_decorator) (Some [GET; POST])
        (add_url_rule "/list/<model_name>/" "list_view"
          (create_list_view model_dict list_view_pagination view_decorator) None
          (add_url_rule "/" "index"
            (create_index_view model_dict view_decorator) None
            admin_blueprint)))).

(** The call with every optional parameter left at its default. *)
Definition create_admin_blueprint_default (models : Models) : Blueprint :=
  create_admin_blueprint models "admin" None true 25 None.

End Blueprint.

(** ** flask_admin/datastore/mongoalchemy.py: form generation *)

(** [s[n:]] *)
Fixpoint string_drop (n : nat) (s : string) : string :=
  match n, s with
  | O, _ => s
  | Datatypes.S n', String _ s' => string_drop n' s'
  | Datatypes.S _, EmptyString => EmptyString
  end.

(** The [default] attribute of a MongoAlchemy field: the [UNSET] marker or a
    value. *)
Inductive MaDefault : Type :=
| UNSET
| DefaultValue (v : PyVal).

(** What the converters read of a MongoAlchemy field: its type, as module and
    class name, and its attributes. [ma_default] is [None] when the field has
    no such attribute; [ma_min] and [ma_max] are the bounds of a string
    field, Python's [None] being [None]. *)
Record MaField : Type := {
  type_module : string;
  type_name : string;
  required : bool;
  ma_default : option MaDefault;
  ma_min : option Z;
  ma_max : option Z
}.

Record DocumentClass : Type := {
  doc_name : string;               (* __name__ *)
  is_document : bool;              (* issubclass(cls, Document) *)
  get_fields : gmap string MaField
}.

Inductive Validator : Type :=
| Optional
| Required
| Length (min max : option Z)
| OtherValidator (name : string).

Inductive Widget : Type :=
| DisabledTextInput
| OtherWidget (name : string).

(** A list of validators is an object: [append] changes it in place, for
    everyone who holds it. The list [convert] makes with [[]] is reached
    through the keyword arguments it is put in and through nothing else, and
    is given by its items. A list that comes with the caller's [field_args]
    is the caller's own object, which the caller may have given to several
    fields: it is given by its identity, and its items are in the store of
    the caller's lists. *)
Inductive ValidatorList : Type :=
| NewList (items : list Validator)
| CallerList (id : nat).

#[global] Instance Validator_eq_dec : EqDecision Validator.
Proof. solve_decision. Defined.

#[global] Instance ValidatorList_eq_dec : EqDecision ValidatorList.
Proof. solve_decision. Defined.

(** The caller's lists: the items of each, by identity; a list with no entry
    is empty. *)
Definition Lists : Type := gmap nat (list Validator).

Definition list_items (lists : gmap nat (list Validator)) (l : ValidatorList)
  : list Validator :=
  match l with
  | NewList items => items
  | CallerList id => default [] (lists !! id)
  end.

(** [l.append(v)] *)
Definition list_append (l : ValidatorList) (v : Validator)
  (lists : gmap nat (list Validator)) : ValidatorList * Lists :=
  match l with
  | NewList items => (NewList (items ++ [v])%list, lists)
  | CallerList id => (CallerList id, <[id := (list_items lists l ++ [v])%list]> lists)
  end.

(** The keyword arguments a form field is built from. [convert] always sets
    the first three; the rest comes from the caller's [field_args]. *)
Record Kwargs : Type := {
  kw_validators : ValidatorList;
  kw_filters : list string;
  kw_default : PyVal;
  kw_widget : option Widget;
  kw_others : gmap string PyVal
}.

(** A caller's [field_args] for one field: the keys it gives. The
    validators are a list of the caller, named by its identity. *)
Record FieldArgs : Type := {
  fa_validators : option nat;
  fa_filters : option (list string);
  fa_default : option PyVal;
  fa_widget : option Widget;
  fa_others : gmap string PyVal
}.

(** [kwargs.update(field_args)]: the caller's list itself is put under
    [validators], not a copy of it. *)
Definition kwargs_update (kwargs : Kwargs) (fa : FieldArgs) : Kwargs :=
  {| kw_validators := from_option CallerList (kw_validators kwargs) (fa_validators fa);
     kw_filters := default (kw_filters kwargs) (fa_filters fa);
     kw_default := default (kw_default kwargs) (fa_default fa);
     kw_widget := from_option Some (kw_widget kwargs) (fa_widget fa);
     kw_others := fa_others fa ∪ kw_others kwargs |}.

(** [kwargs['validators'].append(v)] *)
Definition append_validator (v : Validator) (kwargs : Kwargs) (lists : Lists)
  : Kwargs * Lists :=
  let '(validators, lists) := list_append (kw_validators kwargs) v lists in
  ({| kw_validators := validators;
      kw_filters := kw_filters kwargs;
      kw_default := kw_default kwargs;
      kw_widget := kw_widget kwargs;
      kw_others := kw_others kwargs |}, lists).

(** An unbound form field: the field class and its keyword arguments. *)
Inductive FormField : Type :=
| TextField (kwargs : Kwargs).

(** The validators of a form field, as its list holds them in a given state
    of the caller's lists. *)
Definition field_validators (lists : Lists) (f : FormField) : list Validator :=
  match f with TextField kw => list_items lists (kw_validators kw) end.

(** A converter is called as
    [converter(model=model, ma_field=ma_field, field_args=kwargs)]; it may
    append to the list under [validators], and it returns a form field,
    [None], or raises. *)
Definition Converter : Type :=
  DocumentClass -> MaField -> Kwargs -> Lists -> Result (option FormField) * Lists.

(** [f.TextField(widget=widget, **field_args)]: a [widget] key in
    [field_args] is a second value for the same keyword. *)
Definition conv_ObjectId : Converter := fun model ma_field field_args lists =>
  let widget := DisabledTextInput in
  match kw_widget field_args with
  | Some _ => (Raise TypeError, lists)
  | None =>
      (Ok (Some (TextField
         {| kw_validators := kw_validators field_args;
            kw_filters := kw_filters field_args;
            kw_default := kw_default field_args;
            kw_widget := Some widget;
            kw_others := kw_others field_args |})), lists)
  end.

Definition conv_String : Converter := fun model ma_field field_args lists =>
  let '(field_args, lists) :=
    if truthy (ma_min ma_field) || truthy (ma_max ma_field)
    then append_validator (Length (ma_min ma_field) (ma_max ma_field)) field_args lists
    else (field_args, lists) in
  (Ok (Some (TextField field_args)), lists).

Record ConverterObject : Type := {
  use_mro : bool;
  converters : gmap string Converter
}.

(** [ModelConverterBase.__init__]: the methods marked by [converts], in the
    order of [dir(self)], are entered under each of their class names, over
    whatever the caller's table holds under that name. *)
Definition ModelConverterBase (marked : list (Converter * list string))
  (converters : option (gmap string Converter)) : ConverterObject :=
  let converters := default ∅ converters in
  {| use_mro := true;
     converters :=
       foldl (fun cs obj => foldl (fun cs classname => <[classname := obj.1]> cs) cs obj.2)
             converters marked |}.

Definition ModelConverter (extra_converters : option (gmap string Converter))
  : ConverterObject :=
  ModelConverterBase
    [(conv_ObjectId, ["ObjectIdField"]); (conv_String, ["StringField"])]
    extra_converters.

(** The module-qualified name of a field type,
    ['%s.%s' % (ma_field_type.__module__, ma_field_type.__name__)]. *)
Definition qualified_name (ma_field_type : MaField) : string :=
  type_module ma_field_type +:+ "." +:+ type_name ma_field_type.

(** The key [convert] first looks a field type up under: its module-qualified
    name, cut after [mongoalchemy.fields] and one more character when it
    starts so. *)
Definition type_string (ma_field_type : MaField) : string :=
  let type_string := type_module ma_field_type +:+ "." +:+ type_name ma_field_type in
  if String.prefix "mongoalchemy.fields" type_string
  then string_drop 20 type_string
  else type_string.

(** A [for] loop that leaves at the first key found in the table. *)
Fixpoint first_converter (cs : gmap string Converter) (keys : list string)
  : option Converter :=
  match keys with
  | [] => None
  | k :: keys' =>
      match cs !! k with
      | Some c => Some c
      | None => first_converter cs keys'
      end
  end.

(** Which converter [convert] picks for a field, if any: by [type_string]
    first, by bare class name second. *)
Definition select_converter (self : ConverterObject) (ma_field : MaField)
  : option Converter :=
  let types := [ma_field] in
  match first_converter (converters self) (map type_string types) with
  | Some converter => Some converter
  | None => first_converter (converters self) (map type_name types)
  end.

(** The keyword arguments [convert] prepares before it dispatches; the
    [Optional] validator goes to the end of the caller's list when
    [field_args] brought one. *)
Definition convert_kwargs (ma_field : MaField) (field_args : option FieldArgs)
  (lists : Lists) : Kwargs * Lists :=
  let default :=
    match ma_default ma_field with
    | None => PyNone
    | Some UNSET => PyNone
    | Some (DefaultValue v) => v
    end in
  let kwargs :=
    {| kw_validators := NewList []; kw_filters := []; kw_default := default;
       kw_widget := None; kw_others := ∅ |} in
  let kwargs :=
    match field_args with
    | Some fa => kwargs_update kwargs fa
    | None => kwargs
    end in
  if negb (required ma_field) then append_validator Optional kwargs lists
  else (kwargs, lists).

Definition convert (self : ConverterObject) (model : DocumentClass)
  (ma_field : MaField) (field_args : option FieldArgs) (lists : Lists)
  : Result (option FormField) * Lists :=
  let '(kwargs, lists) := convert_kwargs ma_field field_args lists in
  match select_converter self ma_field with
  | None => (Ok None, lists)
  | Some converter => converter model ma_field kwargs lists
  end.

(** [bool(x)] of an optional iterable of names. *)
Definition nonempty (o : option (list string)) : bool :=
  match o with
  | Some (_ :: _) => true
  | _ => false
  end.

Definition name_in (l : option (list string)) (x : string) : bool :=
  bool_decide (x ∈ default [] l).

(** The loop of [model_fields] over the (name, field) pairs. *)
Fixpoint model_fields_loop (converter : ConverterObject) (model : DocumentClass)
  (field_args : gmap string FieldArgs) (ma_fields : list (string * MaField))
  (field_dict : gmap string FormField) (lists : Lists)
  : Result (gmap string FormField) * Lists :=
  match ma_fields with
  | [] => (Ok field_dict, lists)
  | (name, field) :: rest =>
      match convert converter model field (field_args !! name) lists with
      | (Raise e, lists) => (Raise e, lists)
      | (Ok None, lists) =>
          model_fields_loop converter model field_args rest field_dict lists
      | (Ok (Some wtfield), lists) =>
          model_fields_loop converter model field_args rest
            (<[name := wtfield]> field_dict) lists
      end
  end.

(** The fields [model_fields] runs over: those [only] names when it is
    given and not empty, else all but those [exclude] names. *)
Definition selected_fields (model : DocumentClass) (only exclude : option (list string))
  : list (string * MaField) :=
  let ma_fields := map_to_list (get_fields model) in
  if nonempty only then List.filter (fun x => name_in only x.1) ma_fields
  else if nonempty exclude then List.filter (fun x => negb (name_in exclude x.1)) ma_fields
  else ma_fields.

Definition model_fields (model : DocumentClass) (only exclude : option (list string))
  (field_args : option (gmap string FieldArgs)) (converter : option ConverterObject)
  (lists : Lists) : Result (gmap string FormField) * Lists :=
  if negb (is_document model) then (Raise TypeError, lists) else
  let converter := default (ModelConverter None) converter in
  let field_args := default ∅ field_args in
  let ma_fields := selected_fields model only exclude in
  model_fields_loop converter model field_args ma_fields ∅ lists.

(** The form class [type(model.__name__ + 'Form', (base_class,), field_dict)]. *)
Record MongoFormClass : Type := {
  fc_name : string;
  fc_base : string;
  fc_fields : gmap string FormField
}.

Definition model_form (model : DocumentClass) (base_class : string)
  (only exclude : option (list string))
  (field_args : option (gmap string FieldArgs)) (converter : option ConverterObject)
  (lists : Lists) : Result MongoFormClass * Lists :=
  match model_fields model only exclude field_args converter lists with
  | (Raise e, lists) => (Raise e, lists)
  | (Ok field_dict, lists) =>
      (Ok {| fc_name := doc_name model +:+ "Form"; fc_base := base_class;
             fc_fields := field_dict |}, lists)
  end.


(** ** flask_admin/datastore/mongoalchemy.py: the datastore *)

(** A document instance: its class and its attributes, [mongo_id] among
    them. *)
Record MongoInstance : Type := {
  mi_class : string;
  mi_attrs : gmap string PyVal
}.

Definition getattr (obj : MongoInstance) (name : string) : option PyVal :=
  mi_attrs obj !! name.

Definition setattr (obj : MongoInstance) (name : string) (value : PyVal) : MongoInstance :=
  {| mi_class := mi_class obj; mi_attrs := <[name := value]> (mi_attrs obj) |}.

(** What the datastore needs of bson and MongoAlchemy about object ids:
    [wrap_key k] is what comparing [cls.mongo_id] with the key [k] does,
    giving the object id, or raising [InvalidId] when [k] is no object id (or
    another exception); [has_id v oid] tells whether a stored [mongo_id] is
    that object id. *)
Inductive WrapResult (ObjectId : Type) : Type :=
| Wrapped (oid : ObjectId)
| InvalidId
| WrapRaises (e : PyExn).

Arguments Wrapped {ObjectId} oid.
Arguments InvalidId {ObjectId}.
Arguments WrapRaises {ObjectId} e.

Class Bson (ObjectId : Type) : Type := {
  wrap_key : string -> WrapResult ObjectId;
  has_id : PyVal -> ObjectId -> bool
}.

(** The session's database: the documents of each collection, by class
    name. *)
Record MongoSession : Type := {
  collections : gmap string (list MongoInstance)
}.

Definition collection (db : MongoSession) (cls : DocumentClass) : list MongoInstance :=
  default [] (collections db !! doc_name cls).

Definition instance_has_id `{Bson ObjectId} (oid : ObjectId) (doc : MongoInstance) : bool :=
  match getattr doc "mongo_id" with
  | Some v => has_id v oid
  | None => false
  end.

(** [remove_query(cls).filter(cls.mongo_id == oid).set_safe(True).execute()] *)
Definition remove_by_id `{Bson ObjectId} (cls : DocumentClass) (oid : ObjectId)
  (db : MongoSession) : MongoSession :=
  {| collections :=
       <[doc_name cls := List.filter (fun d => negb (instance_has_id oid d)) (collection db cls)]>
         (collections db) |}.

(** A MongoAlchemy query: the documents it matches and the skip and limit
    set on it. [count()] counts the matches without skip and limit (its
    [with_limit_and_skip] is false unless asked); [all()] applies them, a
    limit of zero being no limit. *)
Record MaQuery : Type := {
  mq_docs : list MongoInstance;
  mq_skip : option Z;
  mq_limit : option Z
}.

Definition ma_skip (n : Z) (q : MaQuery) : MaQuery :=
  {| mq_docs := mq_docs q; mq_skip := Some n; mq_limit := mq_limit q |}.

Definition ma_limit (n : Z) (q : MaQuery) : MaQuery :=
  {| mq_docs := mq_docs q; mq_skip := mq_skip q; mq_limit := Some n |}.

Definition ma_count (q : MaQuery) : Z := Z.of_nat (length (mq_docs q)).

Definition ma_all (q : MaQuery) : list MongoInstance :=
  let after := match mq_skip q with
               | Some k => drop (Z.to_nat k) (mq_docs q)
               | None => mq_docs q
               end in
  match mq_limit q with
  | Some n => if n =? 0 then after else take (Z.to_nat (Z.abs n)) after
  | None => after
  end.

(** Modelled from the spec: [util.Pagination], the base class of
    [MongoAlchemyPagination], is not in the sources at hand. The spec
    describes the pagination descriptor as page number, page size, total
    count and current-page items, which are the keywords the subclass passes
    up. *)
Record UtilPagination : Type := {
  page : Z;
  per_page : Z;
  total_count : Z;
  items : list MongoInstance
}.

Definition MongoAlchemyPagination (page per_page : Z) (query : MaQuery) : UtilPagination :=
  {| page := page; per_page := per_page;
     total_count := ma_count query; items := ma_all query |}.





Record MongoAlchemyDatastore : Type := {
  model_classes : gmap string DocumentClass;
  model_forms : gmap string MongoFormClass;
  form_dict : option (gmap string MongoFormClass)
}.



Definition get_model_class (self : MongoAlchemyDatastore) (model_name : string)
  : option DocumentClass := model_classes self !! model_name.

(** [self.db_session.query(model_class)]; the class [None] has no
    collection to query. *)
Definition ma_query (db : MongoSession) (model_class : option DocumentClass)
  : Result MaQuery :=
  match model_class with
  | None => Raise AttributeError
  | Some cls => Ok {| mq_docs := collection db cls; mq_skip := None; mq_limit := None |}
  end.

Definition create_model_pagination (self : MongoAlchemyDatastore) (db : MongoSession)
  (model_name : string) (page per_page : Z) : Result UtilPagination :=
  let model_class := get_model_class self model_name in
  match ma_query db model_class with
  | Raise e => Raise e
  | Ok q =>
      let query := ma_limit per_page (ma_skip ((page - 1) * per_page) q) in
      Ok (MongoAlchemyPagination page per_page query)
  end.

(** [delete_model_instance]: [True] once the removal ran, [False] when
    [InvalidId] was caught; anything else raised propagates. *)
Definition delete_model_instance `{Bson ObjectId} (self : MongoAlchemyDatastore)
  (model_name model_key : string) (db : MongoSession) : Result bool * MongoSession :=
  let model_class := get_model_class self model_name in
  match model_class with
  | None => (Raise AttributeError, db)
  | Some cls =>
      match wrap_key (ObjectId:=ObjectId) model_key with
      | Wrapped oid => (Ok true, remove_by_id cls oid db)
      | InvalidId => (Ok false, db)
      | WrapRaises e => (Raise e, db)
      end
  end.

Definition get_model_key (model_instance : MongoInstance) : option PyVal :=
  getattr model_instance "mongo_id".

(** A bound form field, as [update_from_form] reads it. *)
Record BoundField : Type := {
  name : string;
  data : PyVal
}.

(** [update_from_form]: the loop over the fields of the form. *)
Fixpoint update_from_form (model_instance : MongoInstance) (form : list BoundField)
  : MongoInstance :=
  match form with
  | [] => model_instance
  | field :: rest =>
      if negb (String.eqb (name field) "mongo_id")
      then update_from_form (setattr model_instance (name field) (data field)) rest
      else update_from_form model_instance rest
  end.

(** ** Reference instances, to run the code on examples *)

(** An interpreter for the examples: [int] drops the blanks around the
    text, reads an optional sign, and wants a plain numeral after it;
    anything else is a [ValueError]. *)
Definition is_space (c : ascii) : bool :=
  let n := nat_of_ascii c in
  ((9 <=? n)%nat && (n <=? 13)%nat) || (n =? 32)%nat.

Fixpoint lstrip (s : string) : string :=
  match s with
  | String c s' => if is_space c then lstrip s' else s
  | EmptyString => EmptyString
  end.

Fixpoint rstrip (s : string) : string :=
  match s with
  | EmptyString => EmptyString
  | String c s' =>
      match rstrip s' with
      | EmptyString => if is_space c then EmptyString else String c EmptyString
      | r => String c r
      end
  end.

Definition signed_numeral (s : string) : Result Z :=
  let body := rstrip (lstrip s) in
  let parsed :=
    match body with
    | String "-" r => Z.opp <$> unsigned_value r
    | String "+" r => unsigned_value r
    | _ => unsigned_value body
    end in
  match parsed with
  | Some n => Ok n
  | None => Raise ValueError
  end.

#[global] Instance example_interpreter : PyInterpreter := {|
  int_of_other := signed_numeral
|}.

#[global] Instance PyVal_eq_dec : EqDecision PyVal.
Proof. solve_decision. Defined.

#[global] Instance Instance_eq_dec : EqDecision Instance.
Proof. solve_decision. Defined.

(** An in-memory session: the stored rows, and what [add] and [delete] have
    queued until [commit]. A row is told by its class and its [id]; a new row
    takes the next free [id] of its class. *)
Record ListSession : Type := {
  stored : list Instance;
  pending_new : list Instance;
  pending_deleted : list Instance
}.

Definition row_id (i : Instance) : option Z :=
  match inst_attrs i !! "id" with
  | Some (PyInt n) => Some n
  | _ => None
  end.

Definition same_row (a b : Instance) : bool :=
  String.eqb (inst_class a) (inst_class b)
  && match row_id a, row_id b with
     | Some x, Some y => x =? y
     | _, _ => false
     end.

Definition next_id (cls : string) (rows : list Instance) : Z :=
  1 + foldr Z.max 0
        (omap (fun i => if String.eqb (inst_class i) cls then row_id i else None) rows).

Definition persist (rows : list Instance) (i : Instance) : list Instance :=
  if existsb (same_row i) rows
  then map (fun r => if same_row i r then i else r) rows
  else
    match row_id i with
    | Some _ => rows ++ [i]
    | None =>
        rows ++ [{| inst_class := inst_class i;
                    inst_attrs := <["id" := PyInt (next_id (inst_class i) rows)]> (inst_attrs i) |}]
    end.

Definition list_commit (s : ListSession) : ListSession :=
  {| stored :=
       foldl persist
         (List.filter (fun r => negb (existsb (same_row r) (pending_deleted s))) (stored s))
         (pending_new s);
     pending_new := [];
     pending_deleted := [] |}.

Definition key_matches (v : PyVal) (key : string) : bool :=
  match v with
  | PyInt n => match py_int key with Ok m => n =? m | Raise _ => false end
  | PyStr s => String.eqb s key
  | _ => false
  end.

#[global] Instance list_session_ops : SessionOps ListSession := {|
  session_rows s model :=
    List.filter (fun r => String.eqb (inst_class r) (__name__ model)) (stored s);
  session_add i s :=
    {| stored := stored s; pending_new := pending_new s ++ [i];
       pending_deleted := pending_deleted s |};
  session_delete i s :=
    {| stored := stored s; pending_new := pending_new s;
       pending_deleted := pending_deleted s ++ [i] |};
  session_commit := list_commit;
  column_matches := key_matches
|}.

(** A small form library: a form class lists its fields and whether each is
    required; a field takes its data from the posted data when there is any,
    else from the object; validation asks a required field to be filled. *)
Record SimpleField : Type := {
  sf_name : string;
  sf_required : bool;
  sf_data : option string;
  sf_errors : list string;
  sf_file : bool
}.

Definition simple_str (v : PyVal) : option string :=
  match v with
  | PyStr s => Some s
  | _ => None
  end.

Definition simple_form_new (cls : list (string * bool)) (formdata : option MultiDict)
  (obj : option Instance) : list SimpleField :=
  map (fun f =>
         {| sf_name := f.1; sf_required := f.2;
            sf_data :=
              match formdata with
              | Some d => if existsb (fun kv => String.eqb kv.1 f.1) d
                          then Some (multidict_get f.1 "" d) else None
              | None => obj ≫= (fun o => inst_attrs o !! f.1 ≫= simple_str)
              end;
            sf_errors := []; sf_file := false |}) cls.

Definition simple_check (f : SimpleField) : SimpleField :=
  {| sf_name := sf_name f; sf_required := sf_required f; sf_data := sf_data f;
     sf_errors :=
       if sf_required f && negb (match sf_data f with
                                 | Some (String _ _) => true
                                 | _ => false
                                 end)
       then ["This field is required."] else [];
     sf_file := sf_file f |}.

Definition simple_validate (form : list SimpleField) : bool * list SimpleField :=
  let checked := map simple_check form in
  (forallb (fun f => match sf_errors f with [] => true | _ => false end) checked, checked).

#[global] Instance simple_forms : FormLib (list (string * bool)) (list SimpleField) SimpleField := {|
  form_new := simple_form_new;
  form_validate := simple_validate;
  form_fields f := f;
  is_file_field := sf_file
|}.

Definition simple_populate (i : Instance) (form : list SimpleField) : Instance :=
  foldl (fun i f =>
           match sf_data f with
           | Some d => {| inst_class := inst_class i;
                          inst_attrs := <[sf_name f := PyStr d]> (inst_attrs i) |}
           | None => i
           end) i form.

(** The helpers, for models whose key column is [id] and whose form asks for
    a [name]. *)
#[global] Instance simple_helpers : AdminHelpers (list (string * bool)) (list SimpleField) := {|
  _form_for_model model exclude_pk :=
    if exclude_pk then [("name", true)] else [("id", false); ("name", true)];
  _populate_model_from_form := simple_populate;
  _get_pk_name model := "id"
|}.

(** The models and rows of the test application: one teacher, three
    students. *)
Definition mapped (cls : string) : ModelClass :=
  {| __name__ := cls; is_declarative := true;
     construct := {| inst_class := cls; inst_attrs := ∅ |};
     instance_str i := "<" +:+ inst_class i +:+ ">" |}.

Definition Base : ModelClass :=
  {| __name__ := "Base"; is_declarative := true;
     construct := {| inst_class := "Base"; inst_attrs := ∅ |};
     instance_str i := "<Base>" |}.

Definition Teacher : ModelClass := mapped "Teacher".

Definition Student : ModelClass := mapped "Student".

Definition row (cls : string) (id : Z) (nm : string) : Instance :=
  {| inst_class := cls;
     inst_attrs := <["id" := PyInt id]> (<["name" := PyStr nm]> ∅) |}.

Definition test_models : Models :=
  ModelsIterable [Base; Teacher; Student].

Definition test_session : ListSession :=
  {| stored := [row "Teacher" 1 "Mrs. Jones"; row "Student" 1 "Stewart";
                row "Student" 2 "Mike"; row "Student" 3 "Jason"];
     pending_new := []; pending_deleted := [] |}.

Definition test_world : World ListSession :=
  {| db_session := test_session; db_calls := []; flashes := [] |}.

Definition request (m : Method) (query posted : MultiDict) : Request :=
  {| method := m; url := "http://localhost/admin/"; args := query; form := posted;
     cookies := [] |}.

(** A view decorator in the manner of [login_required]: a request that
    carries no [username] is sent to the login page, with the address it
    asked for as [next]. *)
Definition login_required {Sess Form Field : Type}
  : Decorator (Sess:=Sess) (Form:=Form) (Field:=Field) := fun f kwds req =>
  if existsb (fun kv => String.eqb kv.1 "username") (cookies req)
  then f kwds req
  else redirect (url_for "login" [("next", url req)]).

(** Object ids as their 24 hexadecimal digits. *)
Definition is_hex (c : ascii) : bool :=
  let n := nat_of_ascii c in
  ((48 <=? n)%nat && (n <=? 57)%nat) || ((97 <=? n)%nat && (n <=? 102)%nat)
  || ((65 <=? n)%nat && (n <=? 70)%nat).

Definition hex_key (key : string) : WrapResult string :=
  if (String.length key =? 24)%nat && forallb is_hex (list_ascii_of_string key)
  then Wrapped key
  else InvalidId.

#[global] Instance hex_bson : Bson string := {|
  wrap_key := hex_key;
  has_id v oid := match v with PyStr s => String.eqb s oid | _ => false end
|}.

(** A document class with an object id, two string fields and a field of a
    type no converter knows. *)
Definition field_of (module type : string) (req : bool) (lo hi : option Z) : MaField :=
  {| type_module := module; type_name := type; required := req;
     ma_default := Some UNSET; ma_min := lo; ma_max := hi |}.

Definition Person : DocumentClass :=
  {| doc_name := "Person"; is_document := true;
     get_fields :=
       <["mongo_id" := field_of "mongoalchemy.fields" "ObjectIdField" false None None]>
       (<["name" := field_of "mongoalchemy.fields" "StringField" true (Some 1) (Some 40)]>
       (<["nick" := field_of "mongoalchemy.fields" "StringField" false None (Some 0)]>
       (<["age" := field_of "mongoalchemy.fields" "IntField" false None None]> ∅))) |}.

Definition person (id nm : string) : MongoInstance :=
  {| mi_class := "Person";
     mi_attrs := <["mongo_id" := PyStr id]> (<["name" := PyStr nm]> ∅) |}.

Definition people : MongoSession :=
  {| collections :=
       <["Person" := [person "4d5e6f708192a3b4c5d6e7f8" "Ada";
                      person "4d5e6f708192a3b4c5d6e7f9" "Bob";
                      person "4d5e6f708192a3b4c5d6e7fa" "Cy"]]> ∅ |}.

Definition person_store : MongoAlchemyDatastore :=
  {| model_classes := <["Person" := Person]> ∅; model_forms := ∅; form_dict := None |}.

(** ** Reading a response, and more of the MongoAlchemy datastore *)

(** The value a rendered template received under a keyword. *)
Fixpoint context_get {Form Field : Type} (k : string)
  (context : list (string * CtxVal (Form:=Form) (Field:=Field)))
  : option (CtxVal (Form:=Form) (Field:=Field)) :=
  match context with
  | [] => None
  | (k', v) :: rest => if String.eqb k k' then Some v else context_get k rest
  end.

(** The instances a response lists: the [model_instances] of its template. *)
Definition listed_instances {Form Field : Type}
  (r : Result (Response (Form:=Form) (Field:=Field))) : list Instance :=
  match r with
  | Ok (Template _ context) =>
      match context_get "model_instances" context with
      | Some (CtxInstances l) => l
      | _ => []
      end
  | _ => []
  end.

(** Whether a call on the session is a query. *)
Definition is_query (c : DbCall) : bool :=
  match c with
  | CallQuery _ => true
  | _ => false
  end.

(** A world reached by queries alone: same session, same flashed messages,
    and only queries added to the calls. *)
Definition only_queried {Sess : Type} (w w' : World Sess) : Prop :=
  db_session w' = db_session w
  /\ flashes w' = flashes w
  /\ exists queries : list DbCall,
       db_calls w' = (db_calls w ++ queries)%list
       /\ forallb is_query queries = true.

(** [.filter(cls.mongo_id == oid)] on a MongoAlchemy query. *)
Definition ma_filter_id `{Bson ObjectId} (oid : ObjectId) (q : MaQuery) : MaQuery :=
  {| mq_docs := List.filter (instance_has_id oid) (mq_docs q);
     mq_skip := mq_skip q; mq_limit := mq_limit q |}.

(** How [find_model_instance] ends: with the one instance, or with the
    [BadResultException] of [.one()] when the query has no result or more
    than one, or with what building the filter raised. *)
Inductive FindResult : Type :=
| Found (doc : MongoInstance)
| BadResultException
| FindInvalidId
| FindRaises (e : PyExn).

(** [.one()] *)
Definition ma_one (q : MaQuery) : FindResult :=
  match ma_all q with
  | [doc] => Found doc
  | _ => BadResultException
  end.

Definition find_model_instance `{Bson ObjectId} (self : MongoAlchemyDatastore)
  (db : MongoSession) (model_name model_key : string) : FindResult :=
  let model_class := get_model_class self model_name in
  match ma_query db model_class with
  | Raise e => FindRaises e
  | Ok q =>
      match wrap_key (ObjectId:=ObjectId) model_key with
      | Wrapped oid => ma_one (ma_filter_id oid q)
      | InvalidId => FindInvalidId
      | WrapRaises e => FindRaises e
      end
  end.



(** ** Reading the outcome of form generation *)

(** The items of the list that the caller's [field_args] give for a field,
    as the caller's lists are; none when they give no list. *)
Definition given_items (lists : Lists) (field_args : option FieldArgs) : list Validator :=
  match field_args ≫= fa_validators with
  | Some id => list_items lists (CallerList id)
  | None => []
  end.

(** The key under which [convert] finds the converter of a field, when it
    finds one: [type_string] if the table has it, the bare class name
    otherwise. *)
Definition dispatch_key (self : ConverterObject) (ma_field : MaField) : string :=
  if bool_decide (is_Some (converters self !! type_string ma_field))
  then type_string ma_field
  else type_name ma_field.


(** * Properties of the admin views *)

(** Unfolding of the monad of views. *)
Ltac run :=
  unfold mbind, mret, M_bind, M_ret, lift, raise, render_template, redirect,
    db_query, db_add, db_delete, db_commit, flash; simpl.

Section AdminProperties.

Context {Sess : Type} `{SessionOps Sess}.
Context {FormClass Form Field : Type} `{FormLib FormClass Form Field}.
Context `{AdminHelpers FormClass Form}.
Context `{PyInterpreter}.

Implicit Types (model_dict : gmap string ModelClass).
Implicit Types (form_dict : option (gmap string FormClass)).
Implicit Types (w : World Sess) (req : Request).

(** The override loop replaces forms and never adds or removes a name. *)
Lemma override_loop_is_Some (l : list (string * FormClass)) (fd : gmap string FormClass) k :
  is_Some (foldl (fun fd mf => if decide (is_Some (fd !! mf.1))
                               then <[mf.1 := mf.2]> fd else fd) fd l !! k)
  <-> is_Some (fd !! k).
Proof.
  revert fd. induction l as [|[n f] l IH]; intros fd; simpl; [tauto|].
  rewrite IH. destruct (decide (is_Some (fd !! n))) as [Hn|Hn]; [|tauto].
  destruct (decide (n = k)) as [->|Hne].
  - rewrite lookup_insert_eq. split; [intros _; exact Hn | intros _; eauto].
  - rewrite lookup_insert_ne by done. tauto.
Qed.

Lemma override_forms_is_Some (mf fd : gmap string FormClass) k :
  is_Some (override_forms mf fd !! k) <-> is_Some (fd !! k).
Proof. apply override_loop_is_Some. Qed.

(** Every registered model has a form in the blueprint's [form_dict]. *)
Lemma build_form_dict_registered model_dict model_forms exclude_pks model_name model :
  model_dict !! model_name = Some model ->
  exists fd model_form,
    build_form_dict model_dict model_forms exclude_pks = Some fd
    /\ fd !! model_name = Some model_form.
Proof.
  intros Hreg. unfold build_form_dict.
  destruct (decide (size model_dict = 0%nat)) as [Hz|_].
  - apply map_size_empty_iff in Hz. subst. rewrite lookup_empty in Hreg. discriminate.
  - assert (is_Some (override_forms (default ∅ model_forms)
              ((fun v => _form_for_model v exclude_pks) <$> model_dict) !! model_name))
      as [f Hf].
    { apply override_forms_is_Some. rewrite lookup_fmap, Hreg. simpl. eauto. }
    eauto.
Qed.

Lemma form_dict_item_found (fd : gmap string FormClass) model_name model_form w :
  fd !! model_name = Some model_form ->
  form_dict_item (Sess:=Sess) (Some fd) model_name w = (Ok model_form, w).
Proof. intros Hf. unfold form_dict_item. rewrite Hf. reflexivity. Qed.

(** C1. For every registered model name, a POST to the add view whose form
    data passes validation adds the populated new instance to the session,
    commits, and answers a redirect to the list view of that model; a POST
    whose form data fails validation renders the add form again, the form
    being the validated one that carries the messages, and neither adds nor
    commits: session and calls made on it are as before. The view function
    is [add], closed over the registry and the forms of the blueprint. *)
Theorem add_post_saves_or_rerenders (models : Models)
  (model_forms : option (gmap string FormClass)) (exclude_pks : bool)
  (model_name : string) (model : ModelClass) req w :
  let model_dict := discover models in
  let form_dict := build_form_dict model_dict model_forms exclude_pks in
  model_dict !! model_name = Some model ->
  method req = POST ->
  exists fd model_form,
    form_dict = Some fd /\ fd !! model_name = Some model_form /\
    let submitted := form_new model_form (Some (form req)) None in
    let validated := (form_validate submitted).2 in
    let saved := _populate_model_from_form (construct model) validated in
    ((form_validate submitted).1 = true ->
     add (Field:=Field) model_dict form_dict model_name req w =
       (Ok (Redirect (url_for ".list_view" [("model_name", model_name)])),
        {| db_session := session_commit (session_add saved (db_session w));
           db_calls := db_calls w ++ [CallAdd saved; CallCommit];
           flashes := flashes w ++
             [("success", model_name +:+ " added: " +:+ instance_str model saved)] |}))
    /\
    ((form_validate submitted).1 = false ->
     add (Field:=Field) model_dict form_dict model_name req w =
       (Ok (Template "admin/add.html"
              [("admin_models", admin_models model_dict);
               ("model_name", CtxStr model_name);
               ("form", CtxForm validated)]),
        {| db_session := db_session w;
           db_calls := db_calls w;
           flashes := flashes w ++
             [("error", "There was an error processing your form. This "
                        +:+ model_name +:+ " has not been saved.")] |})).
Proof.
  intros model_dict form_dict Hreg Hpost.
  destruct (build_form_dict_registered model_dict model_forms exclude_pks _ _ Hreg)
    as (fd & model_form & Hfd & Hform).
  exists fd, model_form. split; [exact Hfd|]. split; [exact Hform|].
  subst form_dict. rewrite Hfd. unfold add. rewrite Hreg.
  split; intros Hvalid; run; rewrite Hform; simpl; rewrite Hpost;
    destruct (form_validate (form_new model_form (Some (form req)) None))
      as [valid validated]; simpl in *; subst valid; simpl;
    rewrite <- ?app_assoc; reflexivity.
Qed.

(** C2. For every registered model name and key, when exactly one instance
    of the model has that primary key, the delete view deletes it, commits,
    and answers a redirect to the list view of the model; when none has, it
    answers the plain text [<model_name> not found: <key>] and leaves the
    session as it was, having only queried it. *)
Theorem delete_removes_or_reports model_dict (model_name model_key : string)
  (model : ModelClass) req w :
  model_dict !! model_name = Some model ->
  let matching :=
    List.filter (row_matches (Sess:=Sess) (_get_pk_name model) model_key)
                (session_rows (db_session w) model) in
  (forall i, matching = [i] ->
     delete (Form:=Form) (Field:=Field) model_dict model_name model_key req w =
       (Ok (Redirect (url_for ".list_view" [("model_name", model_name)])),
        {| db_session := session_commit (session_delete i (db_session w));
           db_calls := db_calls w ++ [CallQuery (__name__ model); CallDelete i; CallCommit];
           flashes := flashes w ++
             [("success", model_name +:+ " deleted: " +:+ instance_str model i)] |}))
  /\
  (matching = [] ->
     delete (Form:=Form) (Field:=Field) model_dict model_name model_key req w =
       (Ok (Body (model_name +:+ " not found: " +:+ model_key)),
        {| db_session := db_session w;
           db_calls := db_calls w ++ [CallQuery (__name__ model)];
           flashes := flashes w |})).
Proof.
  intros Hreg matching. subst matching.
  split; [intros i Hone | intros Hnone]; unfold delete; rewrite Hreg; run;
    unfold query_one, query_all, query_filter_by; simpl;
    [rewrite Hone | rewrite Hnone]; simpl; rewrite <- ?app_assoc; reflexivity.
Qed.

(** C3. For every model name that is not in the registry, each of the list,
    edit, add and delete views answers the plain text
    [<model_name> cannot be accessed through this admin page], a string and
    neither an error object nor an exception, and returns the world it was
    given: no query was made on the session and nothing was changed. *)
Theorem unregistered_model_is_refused model_dict form_dict (per_page : Z)
  (model_name model_key : string) req w :
  model_dict !! model_name = None ->
  let refusal :=
    (Ok (Body (Form:=Form) (Field:=Field)
           (model_name +:+ " cannot be accessed through this admin page")), w) in
  list_view model_dict per_page model_name req w = refusal
  /\ edit model_dict form_dict model_name model_key req w = refusal
  /\ add model_dict form_dict model_name req w = refusal
  /\ delete model_dict model_name model_key req w = refusal.
Proof.
  intros Hnone refusal. subst refusal.
  unfold list_view, edit, add, delete. rewrite Hnone. repeat split.
Qed.

(** The list view reads the session once and hands the template a
    pagination built from the page asked for. *)
Lemma list_view_runs model_dict (per_page : Z) (model_name : string)
  (model : ModelClass) req w (n : Z) :
  model_dict !! model_name = Some model ->
  py_int (multidict_get "page" "1" (args req)) = Ok n ->
  let rows := session_rows (db_session w) model in
  let pagination :=
    {| pg_query := {| q_rows := rows; q_limit := None; q_offset := None |};
       pg_page := n; pg_per_page := per_page;
       pg_total := Z.of_nat (length rows);
       pg_items := take (Z.to_nat per_page) (drop (Z.to_nat ((n - 1) * per_page)) rows) |} in
  list_view (Form:=Form) (Field:=Field) model_dict per_page model_name req w =
    (Ok (Template "admin/list.html"
           [("admin_models", admin_models model_dict);
            ("_get_pk_value", CtxHelper "_get_pk_value");
            ("model_instances", CtxInstances (pg_items pagination));
            ("model_name", CtxStr model_name);
            ("pagination", CtxPagination pagination)]),
     {| db_session := db_session w;
        db_calls := db_calls w ++ [CallQuery (__name__ model)];
        flashes := flashes w |}).
Proof.
  intros Hreg Hpage rows pagination. unfold list_view. rewrite Hreg. run.
  rewrite Hpage. reflexivity.
Qed.

(** C4. For every registered model name and every page number [n >= 1],
    the list view hands its template the instances from offset
    [(n-1) * page_size] on, at most [page_size] of them, where [page_size] is
    the [list_view_pagination] the blueprint was created with (25 when the
    argument is left out), together with a pagination that carries the page
    number, the page size, these items and the total count. *)
Theorem list_view_window (models : Models) (name : string)
  (model_forms : option (gmap string FormClass)) (exclude_pks : bool)
  (page_size : Z)
  (view_decorator : option (Decorator (Sess:=Sess) (Form:=Form) (Field:=Field)))
  (model_name : string) (model : ModelClass) req w (n : Z) :
  let model_dict := discover models in
  let rows := session_rows (db_session w) model in
  view_functions
    (create_admin_blueprint models name model_forms exclude_pks page_size view_decorator)
    !! "list_view"
  = Some (default dummy_decorator view_decorator
            (def1 "model_name" (list_view model_dict page_size)))
  /\ view_functions (create_admin_blueprint_default models) !! "list_view"
     = Some (dummy_decorator (def1 "model_name" (list_view model_dict 25)))
  /\ (model_dict !! model_name = Some model ->
      py_int (multidict_get "page" "1" (args req)) = Ok n ->
      1 <= n ->
      0 <= page_size ->
      exists pagination w',
        list_view (Form:=Form) (Field:=Field) model_dict page_size model_name req w =
          (Ok (Template "admin/list.html"
                 [("admin_models", admin_models model_dict);
                  ("_get_pk_value", CtxHelper "_get_pk_value");
                  ("model_instances", CtxInstances (pg_items pagination));
                  ("model_name", CtxStr model_name);
                  ("pagination", CtxPagination pagination)]), w')
        /\ pg_items pagination =
             take (Z.to_nat page_size)
                  (drop (Z.to_nat (n - 1) * Z.to_nat page_size)%nat rows)
        /\ Z.of_nat (length (pg_items pagination)) <= page_size
        /\ pg_page pagination = n
        /\ pg_per_page pagination = page_size
        /\ pg_total pagination = Z.of_nat (length rows)).
Proof.
  intros model_dict rows. split; [reflexivity|]. split; [reflexivity|].
  intros Hreg Hpage Hn Hsize.
  eexists _, _. split; [apply (list_view_runs _ _ _ _ _ _ _ Hreg Hpage)|].
  simpl. rewrite Z2Nat.inj_mul by lia. fold rows.
  repeat split. rewrite length_take. lia.
Qed.

(** C5. For every registered model and every page, the pagination built for
    a list view carries as total count the number of all instances of the
    model in the datastore, whatever the window of the page holds: in the
    view over the SQLAlchemy session, and in [create_model_pagination] of
    the MongoAlchemy datastore. *)
Theorem pagination_total_counts_all model_dict (page_size : Z)
  (model_name : string) (model : ModelClass) req w (n : Z)
  (self : MongoAlchemyDatastore) (db : MongoSession) (document_name : string)
  (cls : DocumentClass) (page per_page : Z) :
  (model_dict !! model_name = Some model ->
   py_int (multidict_get "page" "1" (args req)) = Ok n ->
   exists context pagination w',
     list_view (Form:=Form) (Field:=Field) model_dict page_size model_name req w =
       (Ok (Template "admin/list.html" context), w')
     /\ In ("pagination", CtxPagination pagination) context
     /\ pg_total pagination = Z.of_nat (length (session_rows (db_session w) model)))
  /\
  (get_model_class self document_name = Some cls ->
   exists pagination,
     create_model_pagination self db document_name page per_page = Ok pagination
     /\ total_count pagination = Z.of_nat (length (collection db cls))).
Proof.
  split.
  - intros Hreg Hpage. eexists _, _, _.
    split; [apply (list_view_runs _ _ _ _ _ _ _ Hreg Hpage)|].
    split; [simpl; do 4 right; left; reflexivity|reflexivity].
  - intros Hcls. unfold create_model_pagination. rewrite Hcls. simpl.
    eexists. split; reflexivity.
Qed.

(** The blueprint registers the five endpoints and no other. *)
Lemma view_functions_endpoints (models : Models) (name : string)
  (model_forms : option (gmap string FormClass)) (exclude_pks : bool)
  (page_size : Z)
  (view_decorator : option (Decorator (Sess:=Sess) (Form:=Form) (Field:=Field)))
  e v :
  view_functions
    (create_admin_blueprint models name model_forms exclude_pks page_size view_decorator)
    !! e = Some v ->
  let d := default dummy_decorator view_decorator in
  let model_dict := discover models in
  let form_dict := build_form_dict model_dict model_forms exclude_pks in
  (e, v) ∈ [("index", d (def0 (index model_dict)));
            ("list_view", d (def1 "model_name" (list_view model_dict page_size)));
            ("edit", d (def2 "model_name" "model_key" (edit model_dict form_dict)));
            ("delete", d (def2 "model_name" "model_key" (delete model_dict)));
            ("add", d (def1 "model_name" (add model_dict form_dict)))].
Proof.
  unfold view_functions, create_admin_blueprint, add_url_rule, dict_of_pairs. simpl.
  intros Hv.
  repeat (apply lookup_insert_Some in Hv as [[<- <-]|[_ Hv]];
          [set_solver|]).
  rewrite lookup_empty in Hv. discriminate.
Qed.

(** C8. When a view decorator is given to [create_admin_blueprint], each of
    the five views (index, list, edit, add, delete) is registered as the
    decorator applied to the view function, and nothing else is registered:
    so a decorator that answers a request by itself, whatever the function
    it wraps, answers so on every route of the admin. When none is given,
    each registered view returns what its undecorated function returns. *)
Theorem view_decorator_wraps_every_view (models : Models) (name : string)
  (model_forms : option (gmap string FormClass)) (exclude_pks : bool)
  (page_size : Z)
  (view_decorator : option (Decorator (Sess:=Sess) (Form:=Form) (Field:=Field))) :
  let model_dict := discover models in
  let form_dict := build_form_dict model_dict model_forms exclude_pks in
  let registered :=
    view_functions
      (create_admin_blueprint models name model_forms exclude_pks page_size view_decorator) in
  let views :=
    [("index", def0 (index model_dict));
     ("list_view", def1 "model_name" (list_view model_dict page_size));
     ("edit", def2 "model_name" "model_key" (edit model_dict form_dict));
     ("delete", def2 "model_name" "model_key" (delete model_dict));
     ("add", def1 "model_name" (add model_dict form_dict))] in
  (forall decorator, view_decorator = Some decorator ->
     (forall e f, (e, f) ∈ views -> registered !! e = Some (decorator f))
     /\ (forall e v, registered !! e = Some v ->
           exists f, (e, f) ∈ views /\ v = decorator f)
     /\ (forall kwds req w r,
           (forall f, decorator f kwds req w = r) ->
           forall e v, registered !! e = Some v -> v kwds req w = r))
  /\
  (view_decorator = None ->
     forall e f, (e, f) ∈ views ->
       exists v, registered !! e = Some v
                 /\ forall kwds req w, v kwds req w = f kwds req w).
Proof.
  intros model_dict form_dict registered views.
  assert (Hall : forall e f, (e, f) ∈ views ->
            registered !! e = Some (default dummy_decorator view_decorator f)).
  { intros e f Hin. subst views.
    repeat (apply elem_of_cons in Hin as [Heq|Hin];
            [injection Heq as -> ->; reflexivity|]).
    apply elem_of_nil in Hin. contradiction. }
  assert (Honly : forall e v, registered !! e = Some v ->
            exists f, (e, f) ∈ views /\ v = default dummy_decorator view_decorator f).
  { intros e v Hv. apply view_functions_endpoints in Hv. simpl in Hv.
    subst views.
    repeat (apply elem_of_cons in Hv as [Heq|Hv];
            [injection Heq as -> ->; eexists; split; [|reflexivity]; set_solver|]).
    apply elem_of_nil in Hv. contradiction. }
  split.
  - intros decorator ->. simpl in *. split; [exact Hall|]. split; [exact Honly|].
    intros kwds req w r Hgate e v Hv.
    destruct (Honly e v Hv) as (f & _ & ->). apply Hgate.
  - intros ->. simpl in *. intros e f Hin. exists (dummy_decorator f).
    split; [apply Hall, Hin|]. reflexivity.
Qed.

End AdminProperties.

(** * Properties of the MongoAlchemy form generation *)

Section FormGeneration.

Implicit Types (self : ConverterObject) (model : DocumentClass).
Implicit Types (ma_field : MaField) (kwargs : Kwargs) (lists : Lists).

Lemma select_converter_unmapped self ma_field :
  converters self !! type_string ma_field = None ->
  converters self !! type_name ma_field = None ->
  select_converter self ma_field = None.
Proof. intros Hq Hb. unfold select_converter. simpl. rewrite Hq, Hb. reflexivity. Qed.

Lemma convert_unmapped self model ma_field field_args lists :
  select_converter self ma_field = None ->
  (convert self model ma_field field_args lists).1 = Ok None.
Proof.
  intros Hsel. unfold convert.
  destruct (convert_kwargs ma_field field_args lists) as [kwargs lists1].
  rewrite Hsel. reflexivity.
Qed.

(** The fields the loop of [model_fields] runs over are fields of the
    model. *)
Lemma selected_fields_of_model model (only exclude : option (list string)) n f :
  (n, f) ∈ selected_fields model only exclude ->
  get_fields model !! n = Some f.
Proof.
  intros Hin. apply elem_of_map_to_list. unfold selected_fields in Hin.
  destruct (nonempty only); [|destruct (nonempty exclude)]; [| |exact Hin];
    apply list_elem_of_In, filter_In in Hin as [Hin _]; apply list_elem_of_In, Hin.
Qed.

(** A name whose fields all convert to nothing keeps whatever the
    dictionary held under it. *)
Lemma loop_keeps_skipped self model (field_args : gmap string FieldArgs)
  (l : list (string * MaField)) (n : string) :
  (forall f lists, (n, f) ∈ l ->
     (convert self model f (field_args !! n) lists).1 = Ok None) ->
  forall acc lists d lists',
    model_fields_loop self model field_args l acc lists = (Ok d, lists') ->
    d !! n = acc !! n.
Proof.
  induction l as [|[n' f'] l IH]; intros Hskip acc lists d lists' Hrun; simpl in Hrun.
  - congruence.
  - assert (Hrest : forall f lists, (n, f) ∈ l ->
              (convert self model f (field_args !! n) lists).1 = Ok None)
      by (intros f ls Hf; apply Hskip; right; exact Hf).
    destruct (convert self model f' (field_args !! n') lists) as [[[wt|]|e] lists1] eqn:Hconv.
    + rewrite (IH Hrest _ _ _ _ Hrun). apply lookup_insert_ne. intros ->.
      pose proof (Hskip f' lists ltac:(left)) as Hnone.
      rewrite Hconv in Hnone. discriminate Hnone.
    + exact (IH Hrest _ _ _ _ Hrun).
    + discriminate.
Qed.

(** The loop ends with a dictionary when every field converts. *)
Lemma loop_succeeds self model (field_args : gmap string FieldArgs)
  (l : list (string * MaField)) :
  (forall n f lists, (n, f) ∈ l ->
     is_ok (convert self model f (field_args !! n) lists).1 = true) ->
  forall acc lists, exists d lists',
    model_fields_loop self model field_args l acc lists = (Ok d, lists').
Proof.
  induction l as [|[n' f'] l IH]; intros Hok acc lists; simpl.
  - eauto.
  - assert (Hrest : forall n f lists, (n, f) ∈ l ->
              is_ok (convert self model f (field_args !! n) lists).1 = true)
      by (intros n f ls Hf; apply Hok; right; exact Hf).
    pose proof (Hok n' f' lists ltac:(left)) as Hhead.
    destruct (convert self model f' (field_args !! n') lists) as [[[wt|]|e] lists1];
      [| |discriminate]; apply IH, Hrest.
Qed.

(** C6, as the code has it. For every field of a document model whose type
    is in the converter table neither under the key [convert] looks up first
    ([type_string]: the module-qualified name, less its first 20 characters
    when it starts with [mongoalchemy.fields]) nor under its bare class
    name: [convert] answers nothing for it and raises nothing, whatever the
    caller's arguments and lists; a dictionary that [model_fields] returns
    has no entry under the name of the field; and when the other fields of
    the model convert, [model_fields] and [model_form] do return, the form
    lacking that field. *)
Theorem unmapped_field_is_omitted model (only exclude : option (list string))
  (field_args : option (gmap string FieldArgs)) (converter : option ConverterObject)
  (base_class : string) (field_name : string) ma_field :
  let self := default (ModelConverter None) converter in
  is_document model = true ->
  get_fields model !! field_name = Some ma_field ->
  converters self !! type_string ma_field = None ->
  converters self !! type_name ma_field = None ->
  (forall args lists, (convert self model ma_field args lists).1 = Ok None)
  /\ (forall lists field_dict lists',
        model_fields model only exclude field_args converter lists = (Ok field_dict, lists') ->
        field_dict !! field_name = None)
  /\ ((forall other f lists, other <> field_name -> get_fields model !! other = Some f ->
         is_ok (convert self model f (default ∅ field_args !! other) lists).1 = true) ->
      forall lists, exists form lists',
        model_form model base_class only exclude field_args converter lists
        = (Ok form, lists')
        /\ fc_fields form !! field_name = None).
Proof.
  intros self Hdoc Hfield Hq Hb.
  assert (Hconv : forall args lists, (convert self model ma_field args lists).1 = Ok None)
    by (intros args lists; apply convert_unmapped, select_converter_unmapped; assumption).
  assert (Hskip : forall lists field_dict lists',
            model_fields model only exclude field_args converter lists
            = (Ok field_dict, lists') ->
            field_dict !! field_name = None).
  { intros lists d lists' Hrun. unfold model_fields in Hrun. rewrite Hdoc in Hrun.
    simpl in Hrun. fold self in Hrun.
    erewrite (loop_keeps_skipped _ _ _ _ field_name); [apply lookup_empty| |exact Hrun].
    intros f ls Hf. apply selected_fields_of_model in Hf.
    rewrite Hfield in Hf. injection Hf as <-. apply Hconv. }
  split; [exact Hconv|]. split; [exact Hskip|].
  intros Hothers lists.
  assert (Hruns : exists d lists',
            model_fields model only exclude field_args converter lists = (Ok d, lists')).
  { unfold model_fields. rewrite Hdoc. simpl. fold self. apply loop_succeeds.
    intros n f ls Hf. apply selected_fields_of_model in Hf.
    destruct (decide (n = field_name)) as [->|Hne].
    - rewrite Hfield in Hf. injection Hf as <-. rewrite Hconv. reflexivity.
    - apply Hothers; assumption. }
  destruct Hruns as (d & lists' & Hd). unfold model_form. rewrite Hd.
  eexists _, _. split; [reflexivity|]. simpl. exact (Hskip _ _ _ Hd).
Qed.

(** What [append] leaves: the list holds its items and the new one, and the
    other lists of the caller are as they were. *)
Lemma append_validator_items v kwargs lists :
  let r := append_validator v kwargs lists in
  list_items r.2 (kw_validators r.1) = (list_items lists (kw_validators kwargs) ++ [v])%list
  /\ kw_widget r.1 = kw_widget kwargs
  /\ (forall items, kw_validators kwargs = NewList items ->
        kw_validators r.1 = NewList (items ++ [v])%list /\ r.2 = lists)
  /\ (forall id, kw_validators kwargs = CallerList id -> kw_validators r.1 = CallerList id)
  /\ forall id,
       list_items r.2 (CallerList id)
       = (list_items lists (CallerList id)
          ++ (if decide (kw_validators kwargs = CallerList id) then [v] else []))%list.
Proof.
  unfold append_validator, list_append.
  destruct (kw_validators kwargs) as [items|id0] eqn:Hl; simpl.
  - split; [reflexivity|]. split; [reflexivity|].
    split; [intros ? [= <-]; split; reflexivity|]. split; [discriminate|].
    intros id. rewrite app_nil_r. reflexivity.
  - split; [rewrite lookup_insert_eq; reflexivity|]. split; [reflexivity|].
    split; [discriminate|]. split; [intros ? [= <-]; reflexivity|].
    intros id. destruct (decide (id0 = id)) as [->|Hne].
    + rewrite lookup_insert_eq. destruct (decide _); [reflexivity|congruence].
    + rewrite lookup_insert_ne by exact Hne.
      destruct (decide _) as [[= Heq]|_]; [congruence|]. rewrite app_nil_r. reflexivity.
Qed.

(** The keyword arguments [convert] hands to a converter: the widget and the
    validators list are the caller's when [field_args] give them; the list
    ends with [Optional] for a field that is not required; the other lists
    of the caller are as they were. *)
Lemma convert_kwargs_spec ma_field (field_args : option FieldArgs) lists :
  let r := convert_kwargs ma_field field_args lists in
  kw_widget r.1 = field_args ≫= fa_widget
  /\ kw_validators r.1
     = match field_args ≫= fa_validators with
       | Some id => CallerList id
       | None => NewList (if required ma_field then [] else [Optional])
       end
  /\ list_items r.2 (kw_validators r.1)
     = (given_items lists field_args ++ (if required ma_field then [] else [Optional]))%list
  /\ (field_args ≫= fa_validators = None -> r.2 = lists)
  /\ forall id,
       list_items r.2 (CallerList id)
       = (list_items lists (CallerList id)
          ++ (if decide (field_args ≫= fa_validators = Some id)
              then (if required ma_field then [] else [Optional]) else []))%list.
Proof.
  unfold convert_kwargs, given_items.
  set (kw0 := {| kw_validators := NewList []; kw_filters := []; kw_default := _;
                 kw_widget := None; kw_others := ∅ |}).
  set (kw := match field_args with Some fa => kwargs_update kw0 fa | None => kw0 end).
  assert (Hw : kw_widget kw = field_args ≫= fa_widget).
  { subst kw. destruct field_args as [fa|]; [|reflexivity]. simpl.
    destruct (fa_widget fa); reflexivity. }
  assert (Hl : kw_validators kw
               = match field_args ≫= fa_validators with
                 | Some id => CallerList id
                 | None => NewList []
                 end).
  { subst kw. destruct field_args as [fa|]; [|reflexivity]. simpl.
    destruct (fa_validators fa); reflexivity. }
  destruct (required ma_field); simpl.
  - rewrite Hw, Hl. split; [reflexivity|].
    split; [destruct (field_args ≫= fa_validators); reflexivity|].
    split; [destruct (field_args ≫= fa_validators); simpl; rewrite ?app_nil_r; reflexivity|].
    split; [reflexivity|].
    intros id. destruct (decide _); rewrite app_nil_r; reflexivity.
  - destruct (append_validator_items Optional kw lists) as (Hitems & Hwid & Hnew & Hcaller & Hothers).
    cbv zeta in *. rewrite Hwid, Hw, Hitems, Hl. split; [reflexivity|].
    destruct (field_args ≫= fa_validators) as [id0|] eqn:Hgiven.
    + rewrite (Hcaller id0) by exact Hl. split; [reflexivity|]. split; [reflexivity|].
      split; [discriminate|].
      intros id. etransitivity; [exact (Hothers id)|]. rewrite Hl. simpl.
      destruct (decide (CallerList id0 = CallerList id)) as [[= ->]|Hne].
      * rewrite decide_True by reflexivity. reflexivity.
      * rewrite decide_False by congruence. reflexivity.
    + destruct (Hnew [] Hl) as [Hkw Hsame]. rewrite Hkw, Hsame.
      split; [reflexivity|]. split; [reflexivity|]. split; [reflexivity|].
      intros id. rewrite app_nil_r. reflexivity.
Qed.

(** The table of [ModelConverter] holds the two converters of the module
    under their class names, whatever the caller added; every other name is
    as in the caller's table. *)
Lemma ModelConverter_lookup (extra_converters : option (gmap string Converter))
  (k : string) :
  converters (ModelConverter extra_converters) !! k
  = if decide (k = "StringField") then Some conv_String
    else if decide (k = "ObjectIdField") then Some conv_ObjectId
    else default ∅ extra_converters !! k.
Proof.
  unfold ModelConverter, ModelConverterBase. simpl.
  destruct (decide (k = "StringField")) as [->|Hs]; [apply lookup_insert_eq|].
  rewrite lookup_insert_ne by congruence.
  destruct (decide (k = "ObjectIdField")) as [->|Ho]; [apply lookup_insert_eq|].
  apply lookup_insert_ne. congruence.
Qed.

Lemma ModelConverter_own (extra_converters : option (gmap string Converter)) :
  converters (ModelConverter extra_converters) !! "StringField" = Some conv_String
  /\ converters (ModelConverter extra_converters) !! "ObjectIdField" = Some conv_ObjectId.
Proof. rewrite !ModelConverter_lookup. split; reflexivity. Qed.

(** A [StringField] of [mongoalchemy.fields] goes to [conv_String]. *)
Lemma string_field_dispatch (extra_converters : option (gmap string Converter)) ma_field :
  type_module ma_field = "mongoalchemy.fields" ->
  type_name ma_field = "StringField" ->
  select_converter (ModelConverter extra_converters) ma_field = Some conv_String.
Proof.
  intros Hm Hn.
  assert (Hts : type_string ma_field = "StringField")
    by (unfold type_string; rewrite Hm, Hn; reflexivity).
  unfold select_converter. cbn [map first_converter].
  rewrite Hts, (proj1 (ModelConverter_own extra_converters)). reflexivity.
Qed.

Lemma own_converters_differ : conv_ObjectId <> conv_String.
Proof.
  intros Heq.
  pose (kw := {| kw_validators := NewList []; kw_filters := []; kw_default := PyNone;
                 kw_widget := Some DisabledTextInput; kw_others := ∅ |}).
  pose (f := {| type_module := ""; type_name := ""; required := true;
                ma_default := None; ma_min := None; ma_max := None |}).
  pose (m := {| doc_name := ""; is_document := true; get_fields := ∅ |}).
  assert (Habs : conv_ObjectId m f kw ∅ = conv_String m f kw ∅) by (rewrite Heq; reflexivity).
  discriminate Habs.
Qed.

(** What [conv_ObjectId] and [conv_String] do with the keyword arguments of
    [convert]. *)
Lemma conv_ObjectId_spec model ma_field kwargs lists :
  conv_ObjectId model ma_field kwargs lists
  = (match kw_widget kwargs with
     | Some _ => Raise TypeError
     | None => Ok (Some (TextField
                 {| kw_validators := kw_validators kwargs;
                    kw_filters := kw_filters kwargs;
                    kw_default := kw_default kwargs;
                    kw_widget := Some DisabledTextInput;
                    kw_others := kw_others kwargs |}))
     end, lists).
Proof. unfold conv_ObjectId. destruct (kw_widget kwargs); reflexivity. Qed.

Lemma conv_String_spec model ma_field kwargs lists :
  exists kwargs' lists',
    conv_String model ma_field kwargs lists = (Ok (Some (TextField kwargs')), lists')
    /\ kw_widget kwargs' = kw_widget kwargs
    /\ list_items lists' (kw_validators kwargs')
       = (list_items lists (kw_validators kwargs)
          ++ (if truthy (ma_min ma_field) || truthy (ma_max ma_field)
              then [Length (ma_min ma_field) (ma_max ma_field)] else []))%list
    /\ (forall items, kw_validators kwargs = NewList items ->
          lists' = lists
          /\ kw_validators kwargs'
             = NewList (items
                        ++ (if truthy (ma_min ma_field) || truthy (ma_max ma_field)
                            then [Length (ma_min ma_field) (ma_max ma_field)] else []))%list)
    /\ (forall id, kw_validators kwargs = CallerList id ->
          kw_validators kwargs' = CallerList id)
    /\ forall id,
         list_items lists' (CallerList id)
         = (list_items lists (CallerList id)
            ++ (if decide (kw_validators kwargs = CallerList id)
                then (if truthy (ma_min ma_field) || truthy (ma_max ma_field)
                      then [Length (ma_min ma_field) (ma_max ma_field)] else [])
                else []))%list.
Proof.
  unfold conv_String.
  destruct (truthy (ma_min ma_field) || truthy (ma_max ma_field)).
  - destruct (append_validator_items (Length (ma_min ma_field) (ma_max ma_field))
                kwargs lists) as (Hitems & Hwid & Hnew & Hcaller & Hothers).
    cbv zeta in *.
    destruct (append_validator _ kwargs lists) as [kwargs' lists'].
    simpl in *. exists kwargs', lists'. split; [reflexivity|].
    split; [exact Hwid|]. split; [exact Hitems|].
    split; [intros items Hi; destruct (Hnew items Hi); split; assumption|].
    split; [exact Hcaller|]. exact Hothers.
  - exists kwargs, lists. split; [reflexivity|]. split; [reflexivity|].
    split; [rewrite app_nil_r; reflexivity|].
    split; [intros items ->; split; [|rewrite app_nil_r]; reflexivity|].
    split; [intros id Hid; exact Hid|].
    intros id. destruct (decide _); rewrite app_nil_r; reflexivity.
Qed.

(** C7, as the code has it. For every model field that one of the module's
    own converters ([conv_ObjectId], [conv_String]) turns into a form field:
    when the field is not required, [Optional] is among the validators of
    the form field; and when it is a string field whose [min] or [max] is
    true as Python tests it (neither [None] nor zero), [Length] with exactly
    its [min] and [max] is among them. The validators are read as the list
    of the form field holds them when [convert] has returned. *)
Theorem injected_validators (extra_converters : option (gmap string Converter))
  model ma_field (field_args : option FieldArgs) (wtfield : FormField) lists lists' :
  let self := ModelConverter extra_converters in
  convert self model ma_field field_args lists = (Ok (Some wtfield), lists') ->
  select_converter self ma_field = Some conv_ObjectId
  \/ select_converter self ma_field = Some conv_String ->
  (required ma_field = false -> Optional ∈ field_validators lists' wtfield)
  /\ (select_converter self ma_field = Some conv_String ->
      truthy (ma_min ma_field) || truthy (ma_max ma_field) = true ->
      Length (ma_min ma_field) (ma_max ma_field) ∈ field_validators lists' wtfield).
Proof.
  intros self Hconv Hown. unfold convert in Hconv.
  destruct (convert_kwargs_spec ma_field field_args lists) as (_ & _ & Hitems & _).
  cbv zeta in Hitems.
  destruct (convert_kwargs ma_field field_args lists) as [kwargs lists1].
  simpl in Hitems.
  destruct Hown as [Hsel|Hsel]; rewrite Hsel in Hconv.
  - rewrite conv_ObjectId_spec in Hconv.
    destruct (kw_widget kwargs); [discriminate|].
    injection Hconv as <- <-. simpl. rewrite Hitems. split.
    + intros ->. apply elem_of_app. right. left.
    + intros Hstr. exfalso. apply own_converters_differ. congruence.
  - destruct (conv_String_spec model ma_field kwargs lists1)
      as (kwargs' & lists2 & Hrun & _ & Hitems' & _).
    rewrite Hrun in Hconv. injection Hconv as <- <-. simpl.
    rewrite Hitems', Hitems. split.
    + intros ->. apply elem_of_app. left. apply elem_of_app. right. left.
    + intros _ ->. apply elem_of_app. right. left.
Qed.

End FormGeneration.

(** * Properties of the MongoAlchemy datastore *)

Section Datastore.

Context {ObjectId : Type} `{Bson ObjectId}.

Implicit Types (model_instance : MongoInstance) (form : list BoundField).

(** An attribute that no field writes keeps its value. The field named
    [mongo_id] writes nothing. *)
Lemma update_from_form_untouched form : forall model_instance (a : string),
  (forall field, field ∈ form -> name field = a -> a = "mongo_id") ->
  getattr (update_from_form model_instance form) a = getattr model_instance a.
Proof.
  induction form as [|field rest IH]; intros model_instance a Hfree; simpl; [reflexivity|].
  assert (Hrest : forall f, f ∈ rest -> name f = a -> a = "mongo_id")
    by (intros f Hf; apply Hfree; right; exact Hf).
  destruct (String.eqb_spec (name field) "mongo_id") as [Hid|Hid]; simpl.
  - apply IH, Hrest.
  - rewrite (IH _ _ Hrest). unfold getattr, setattr. simpl.
    apply lookup_insert_ne. intros Heq. apply Hid.
    rewrite Heq. apply (Hfree field); [left|exact Heq].
Qed.

Lemma update_from_form_class form : forall model_instance,
  mi_class (update_from_form model_instance form) = mi_class model_instance.
Proof.
  induction form as [|field rest IH]; intros model_instance; simpl; [reflexivity|].
  destruct (negb (String.eqb (name field) "mongo_id")); rewrite IH; reflexivity.
Qed.

Lemma update_from_form_copies form : forall model_instance field,
  NoDup (map name form) ->
  field ∈ form ->
  name field <> "mongo_id" ->
  getattr (update_from_form model_instance form) (name field) = Some (data field).
Proof.
  induction form as [|head rest IH]; intros model_instance field Hnodup Hin Hne.
  - apply elem_of_nil in Hin. contradiction.
  - simpl in Hnodup. apply NoDup_cons in Hnodup as [Hfresh Hnodup].
    apply elem_of_cons in Hin as [->|Hin]; simpl.
    + destruct (String.eqb_spec (name head) "mongo_id") as [Hid|_]; [contradiction|]. simpl.
      rewrite update_from_form_untouched.
      * unfold getattr, setattr. simpl. apply lookup_insert_eq.
      * intros f Hf Heq. exfalso. apply Hfresh. rewrite <- Heq.
        apply list_elem_of_fmap. exists f. split; [reflexivity|exact Hf].
    + destruct (negb (String.eqb (name head) "mongo_id")); apply IH; assumption.
Qed.

(** C9. For every form and model instance, [update_from_form] leaves the
    [mongo_id] of the instance as it was, whatever the form holds under that
    name, so the key that tells which document is saved does not come from
    the form; it copies the data of every other field onto the attribute of
    the same name (field names being distinct, as in a form), and leaves
    alone the attributes that no field names. *)
Theorem update_from_form_spares_mongo_id model_instance form :
  let updated := update_from_form model_instance form in
  get_model_key updated = get_model_key model_instance
  /\ mi_class updated = mi_class model_instance
  /\ (NoDup (map name form) ->
      forall field, field ∈ form -> name field <> "mongo_id" ->
        getattr updated (name field) = Some (data field))
  /\ (forall a, a ∉ map name form -> getattr updated a = getattr model_instance a).
Proof.
  intros updated. subst updated. repeat split.
  - unfold get_model_key. apply update_from_form_untouched. intros; reflexivity.
  - apply update_from_form_class.
  - intros Hnodup field Hin Hne. apply update_from_form_copies; assumption.
  - intros a Hfree. apply update_from_form_untouched. intros f Hf Heq.
    exfalso. apply Hfree. rewrite <- Heq. apply list_elem_of_fmap.
    exists f. split; [reflexivity|exact Hf].
Qed.

Lemma filter_keeps_all {A} (p : A -> bool) (l : list A) :
  (forall x, x ∈ l -> p x = true) -> List.filter p l = l.
Proof.
  induction l as [|x l IH]; intros Hall; simpl; [reflexivity|].
  rewrite (Hall x) by left. f_equal. apply IH. intros y Hy. apply Hall. right. exact Hy.
Qed.

(** C10. For a registered model name, [delete_model_instance] answers
    [False] only when the key is no object id ([InvalidId] was raised on
    it); for every key that is an object id it answers [True] after the
    removal, and it does so too when no document of the collection has that
    id, the collection then being as before: [True] does not say that a
    document was deleted. *)
Theorem delete_model_instance_verdict (self : MongoAlchemyDatastore)
  (model_name model_key : string) (cls : DocumentClass) (db : MongoSession) :
  get_model_class self model_name = Some cls ->
  let outcome := delete_model_instance (ObjectId:=ObjectId) self model_name model_key db in
  (outcome.1 = Ok false -> wrap_key (ObjectId:=ObjectId) model_key = InvalidId)
  /\ (forall oid, wrap_key model_key = Wrapped oid ->
        outcome = (Ok true, remove_by_id cls oid db))
  /\ (forall oid, wrap_key model_key = Wrapped oid ->
        (forall doc, doc ∈ collection db cls -> instance_has_id oid doc = false) ->
        outcome.1 = Ok true /\ collection outcome.2 cls = collection db cls).
Proof.
  intros Hcls outcome. subst outcome. unfold delete_model_instance. rewrite Hcls.
  split; [|split].
  - destruct (wrap_key model_key); simpl; intros Hres; [discriminate|reflexivity|discriminate].
  - intros oid ->. reflexivity.
  - intros oid -> Hnone. simpl. split; [reflexivity|].
    unfold collection at 1. simpl. rewrite lookup_insert_eq. simpl.
    apply filter_keeps_all. intros doc Hdoc. rewrite (Hnone doc Hdoc). reflexivity.
Qed.

End Datastore.

(** * The properties at work on the examples *)

(** C1 on the test application: posting a name to the add view of
    [Teacher] redirects to the list and leaves two teachers; posting an
    empty name changes nothing in the session. *)
Lemma add_post_saves_or_rerenders_witness :
  let good := request POST [] [("name", "Mr. Kohleffel")] in
  let bad := request POST [] [("name", "")] in
  let model_dict := discover test_models in
  let form_dict := build_form_dict (Form:=list SimpleField) model_dict None true in
  model_dict !! "Teacher" = Some Teacher
  /\ method good = POST
  /\ method bad = POST
  /\ (add (Field:=SimpleField) model_dict form_dict "Teacher" good test_world).1
     = Ok (Redirect (url_for ".list_view" [("model_name", "Teacher")]))
  /\ length (session_rows
               (db_session (add (Field:=SimpleField) model_dict form_dict "Teacher" good
                              test_world).2) Teacher) = 2%nat
  /\ db_session (add (Field:=SimpleField) model_dict form_dict "Teacher" bad test_world).2
     = test_session.
Proof.
  cbv zeta.
  assert (Hreg : discover test_models !! "Teacher" = Some Teacher)
    by (vm_compute; reflexivity).
  split; [exact Hreg|]. split; [reflexivity|]. split; [reflexivity|].
  destruct (add_post_saves_or_rerenders (Field:=SimpleField) test_models None true
              "Teacher" Teacher (request POST [] [("name", "Mr. Kohleffel")]) test_world
              Hreg eq_refl) as (fd & mf & Hfd & Hmf & Hok & _).
  destruct (add_post_saves_or_rerenders (Field:=SimpleField) test_models None true
              "Teacher" Teacher (request POST [] [("name", "")]) test_world
              Hreg eq_refl) as (fd' & mf' & Hfd' & Hmf' & _ & Hfail).
  vm_compute in Hfd. injection Hfd as <-. vm_compute in Hmf. injection Hmf as <-.
  vm_compute in Hfd'. injection Hfd' as <-. vm_compute in Hmf'. injection Hmf' as <-.
  rewrite Hok by (vm_compute; reflexivity).
  rewrite Hfail by (vm_compute; reflexivity).
  split; [reflexivity|]. split; [vm_compute; reflexivity|reflexivity].
Defined.

(** C2 on the test application: deleting student 2 redirects and leaves two
    students; deleting a student that is not there answers the message and
    leaves the session alone. *)
Lemma delete_removes_or_reports_witness :
  let model_dict := discover test_models in
  let req := request GET [] [] in
  let there := delete (Form:=list SimpleField) (Field:=SimpleField) model_dict
                 "Student" "2" req test_world in
  let gone := delete (Form:=list SimpleField) (Field:=SimpleField) model_dict
                "Student" "9" req test_world in
  model_dict !! "Student" = Some Student
  /\ List.filter (row_matches (Sess:=ListSession) "id" "2") (session_rows test_session Student)
     = [row "Student" 2 "Mike"]
  /\ List.filter (row_matches (Sess:=ListSession) "id" "9") (session_rows test_session Student)
     = []
  /\ there.1 = Ok (Redirect (url_for ".list_view" [("model_name", "Student")]))
  /\ length (session_rows (db_session there.2) Student) = 2%nat
  /\ gone.1 = Ok (Body "Student not found: 9")
  /\ db_session gone.2 = test_session.
Proof.
  cbv zeta.
  assert (Hreg : discover test_models !! "Student" = Some Student)
    by (vm_compute; reflexivity).
  assert (Hone : List.filter (row_matches (Sess:=ListSession) "id" "2")
                   (session_rows test_session Student) = [row "Student" 2 "Mike"])
    by (vm_compute; reflexivity).
  assert (Hnone : List.filter (row_matches (Sess:=ListSession) "id" "9")
                    (session_rows test_session Student) = [])
    by (vm_compute; reflexivity).
  split; [exact Hreg|]. split; [exact Hone|]. split; [exact Hnone|].
  destruct (delete_removes_or_reports (Form:=list SimpleField) (Field:=SimpleField)
              (discover test_models) "Student" "2" Student (request GET [] []) test_world Hreg)
    as [Hdel _].
  destruct (delete_removes_or_reports (Form:=list SimpleField) (Field:=SimpleField)
              (discover test_models) "Student" "9" Student (request GET [] []) test_world Hreg)
    as [_ Hmiss].
  rewrite (Hdel _ Hone), (Hmiss Hnone).
  split; [reflexivity|]. split; [vm_compute; reflexivity|].
  split; reflexivity.
Defined.

(** C3 on the test application, where [Course] is not registered. *)
Lemma unregistered_model_is_refused_witness :
  let model_dict := discover test_models in
  let form_dict := build_form_dict (Form:=list SimpleField) model_dict None true in
  let req := request POST [("page", "2")] [("name", "x")] in
  let refusal :=
    (Ok (Body (Form:=list SimpleField) (Field:=SimpleField)
           "Course cannot be accessed through this admin page"), test_world) in
  model_dict !! "Course" = None
  /\ list_view model_dict 25 "Course" req test_world = refusal
  /\ edit model_dict form_dict "Course" "1" req test_world = refusal
  /\ add model_dict form_dict "Course" req test_world = refusal
  /\ delete model_dict "Course" "1" req test_world = refusal.
Proof.
  cbv zeta.
  assert (Hnone : discover test_models !! "Course" = None) by (vm_compute; reflexivity).
  split; [exact Hnone|].
  exact (unregistered_model_is_refused (Form:=list SimpleField) (Field:=SimpleField)
           (discover test_models)
           (build_form_dict (Form:=list SimpleField) (discover test_models) None true)
           25 "Course" "1" (request POST [("page", "2")] [("name", "x")]) test_world Hnone).
Defined.

(** C4 on the test application: page 2 of the students, two to a page, is
    the third student alone, of three in all. *)
Lemma list_view_window_witness :
  let req := request GET [("page", "2")] [] in
  let model_dict := discover test_models in
  model_dict !! "Student" = Some Student
  /\ py_int (multidict_get "page" "1" (args req)) = Ok 2
  /\ 1 <= 2
  /\ 0 <= 2
  /\ exists pagination w',
       list_view (Form:=list SimpleField) (Field:=SimpleField) model_dict 2 "Student" req
         test_world =
         (Ok (Template "admin/list.html"
                [("admin_models", admin_models model_dict);
                 ("_get_pk_value", CtxHelper "_get_pk_value");
                 ("model_instances", CtxInstances (pg_items pagination));
                 ("model_name", CtxStr "Student");
                 ("pagination", CtxPagination pagination)]), w')
       /\ pg_items pagination = [row "Student" 3 "Jason"]
       /\ pg_page pagination = 2
       /\ pg_per_page pagination = 2
       /\ pg_total pagination = 3.
Proof.
  cbv zeta.
  assert (Hreg : discover test_models !! "Student" = Some Student)
    by (vm_compute; reflexivity).
  assert (Hpage : py_int (multidict_get "page" "1" (args (request GET [("page", "2")] [])))
                  = Ok 2) by (vm_compute; reflexivity).
  split; [exact Hreg|]. split; [exact Hpage|]. split; [lia|]. split; [lia|].
  destruct (list_view_window (Form:=list SimpleField) (Field:=SimpleField)
              test_models "admin" None true 2 None "Student" Student
              (request GET [("page", "2")] []) test_world 2) as (_ & _ & Hwin).
  destruct (Hwin Hreg Hpage ltac:(lia) ltac:(lia))
    as (pagination & w' & Hrun & Hitems & _ & Hp & Hpp & Htotal).
  exists pagination, w'. split; [exact Hrun|].
  rewrite Hitems, Hp, Hpp, Htotal. repeat split; vm_compute; reflexivity.
Defined.

(** C5 on the examples: one student on page 2 and a total of 3; one person
    on page 2 and a total of 3. *)
Lemma pagination_total_counts_all_witness :
  let req := request GET [("page", "2")] [] in
  let model_dict := discover test_models in
  model_dict !! "Student" = Some Student
  /\ py_int (multidict_get "page" "1" (args req)) = Ok 2
  /\ get_model_class person_store "Person" = Some Person
  /\ (exists context pagination w',
        list_view (Form:=list SimpleField) (Field:=SimpleField) model_dict 2 "Student" req
          test_world = (Ok (Template "admin/list.html" context), w')
        /\ In ("pagination", CtxPagination pagination) context
        /\ pg_total pagination = 3)
  /\ (exists pagination,
        create_model_pagination person_store people "Person" 2 2 = Ok pagination
        /\ total_count pagination = 3
        /\ length (items pagination) = 1%nat).
Proof.
  cbv zeta.
  assert (Hreg : discover test_models !! "Student" = Some Student)
    by (vm_compute; reflexivity).
  assert (Hpage : py_int (multidict_get "page" "1" (args (request GET [("page", "2")] [])))
                  = Ok 2) by (vm_compute; reflexivity).
  assert (Hcls : get_model_class person_store "Person" = Some Person)
    by (vm_compute; reflexivity).
  split; [exact Hreg|]. split; [exact Hpage|]. split; [exact Hcls|].
  destruct (pagination_total_counts_all (Form:=list SimpleField) (Field:=SimpleField)
              (discover test_models) 2 "Student" Student (request GET [("page", "2")] [])
              test_world 2 person_store people "Person" Person 2 2) as [Hsql Hmongo].
  split.
  - destruct (Hsql Hreg Hpage) as (context & pagination & w' & Hrun & Hin & Htotal).
    exists context, pagination, w'. split; [exact Hrun|]. split; [exact Hin|].
    rewrite Htotal. vm_compute. reflexivity.
  - destruct (Hmongo Hcls) as (pagination & Hrun & Htotal).
    exists pagination. split; [exact Hrun|]. split.
    + rewrite Htotal. vm_compute. reflexivity.
    + vm_compute in Hrun. injection Hrun as <-. reflexivity.
Defined.

(** Membership in a list written out. *)
Ltac listed := repeat first [apply list_elem_of_here | apply list_elem_of_further].

(** C8 on the test application: under [login_required], a request without
    a user is sent to the login page by each of the five views; with no
    decorator, the registered list view answers as [list_view] does. *)
Lemma view_decorator_wraps_every_view_witness :
  let gated :=
    view_functions
      (create_admin_blueprint (Sess:=ListSession) (Form:=list SimpleField) (Field:=SimpleField)
         test_models "admin" None true 25 (Some login_required)) in
  let plain :=
    view_functions
      (create_admin_blueprint (Sess:=ListSession) (Form:=list SimpleField) (Field:=SimpleField)
         test_models "admin" None true 25 None) in
  let req := request GET [] [] in
  let to_login :=
    (Ok (Redirect (Form:=list SimpleField) (Field:=SimpleField)
           (url_for "login" [("next", "http://localhost/admin/")])), test_world) in
  let call (views : gmap string ViewFunc) e kwds :=
    from_option (fun v : ViewFunc => v kwds req test_world) (Raise KeyError, test_world)
                (views !! e) in
  call gated "index" ∅ = to_login
  /\ call gated "list_view" {["model_name" := "Student"]} = to_login
  /\ call gated "edit" {["model_name" := "Student"; "model_key" := "1"]} = to_login
  /\ call gated "delete" {["model_name" := "Student"; "model_key" := "1"]} = to_login
  /\ call gated "add" {["model_name" := "Student"]} = to_login
  /\ call plain "list_view" {["model_name" := "Student"]}
     = list_view (discover test_models) 25 "Student" req test_world.
Proof.
  cbv beta zeta.
  destruct (view_decorator_wraps_every_view (Sess:=ListSession) (Form:=list SimpleField)
              (Field:=SimpleField) test_models "admin" None true 25 (Some login_required))
    as [Hsome _].
  destruct (Hsome login_required eq_refl) as (Hwrap & _ & _).
  destruct (view_decorator_wraps_every_view (Sess:=ListSession) (Form:=list SimpleField)
              (Field:=SimpleField) test_models "admin" None true 25 None)
    as [_ Hnone].
  split; [rewrite (Hwrap "index" _ ltac:(listed)); reflexivity|].
  split; [rewrite (Hwrap "list_view" _ ltac:(listed)); reflexivity|].
  split; [rewrite (Hwrap "edit" _ ltac:(listed)); reflexivity|].
  split; [rewrite (Hwrap "delete" _ ltac:(listed)); reflexivity|].
  split; [rewrite (Hwrap "add" _ ltac:(listed)); reflexivity|].
  destruct (Hnone eq_refl "list_view" _ ltac:(listed)) as (v & Hv & Hsame).
  etransitivity; [exact (f_equal (from_option _ _) Hv)|].
  simpl. rewrite Hsame. reflexivity.
Defined.

(** C6 as amended, on the example: [Person.age] is an [IntField], which no
    converter knows, and the form of [Person] has no [age] while it has a
    [name]. *)
Lemma unmapped_field_is_omitted_witness :
  let age := field_of "mongoalchemy.fields" "IntField" false None None in
  is_document Person = true
  /\ get_fields Person !! "age" = Some age
  /\ converters (ModelConverter None) !! type_string age = None
  /\ converters (ModelConverter None) !! type_name age = None
  /\ (convert (ModelConverter None) Person age None ∅).1 = Ok None
  /\ exists form lists',
       model_form Person "Form" None None None None ∅ = (Ok form, lists')
       /\ fc_fields form !! "age" = None
       /\ is_Some (fc_fields form !! "name").
Proof.
  cbv zeta.
  assert (Hfield : get_fields Person !! "age"
                   = Some (field_of "mongoalchemy.fields" "IntField" false None None))
    by (vm_compute; reflexivity).
  assert (Hq : converters (ModelConverter None)
                 !! type_string (field_of "mongoalchemy.fields" "IntField" false None None)
               = None) by (vm_compute; reflexivity).
  assert (Hb : converters (ModelConverter None)
                 !! type_name (field_of "mongoalchemy.fields" "IntField" false None None)
               = None) by (vm_compute; reflexivity).
  split; [reflexivity|]. split; [exact Hfield|]. split; [exact Hq|]. split; [exact Hb|].
  destruct (unmapped_field_is_omitted Person None None None None "Form" "age" _
              eq_refl Hfield Hq Hb) as (Hconv & _ & Hform).
  split; [apply Hconv|].
  destruct (Hform) with (lists := (∅ : Lists)) as (form & lists' & Hrun & Hage).
  { intros other f lists _ Hf. unfold Person in Hf. simpl in Hf.
    repeat (apply lookup_insert_Some in Hf as [[<- <-]|[_ Hf]]; [vm_compute; reflexivity|]).
    rewrite lookup_empty in Hf. discriminate. }
  exists form, lists'. split; [exact Hrun|]. split; [exact Hage|].
  vm_compute in Hrun. injection Hrun as <- _. vm_compute. eauto.
Defined.

(** C6 as stated fails for a field type of a submodule of
    [mongoalchemy.fields]: the type [T] of the module
    [mongoalchemy.fields.m] is looked up under [m.T]. With a converter
    entered under that key, the table has neither the module-qualified name
    of the type nor its bare class name, and yet the field is converted and
    is in the form. *)
Lemma submodule_type_is_converted :
  let ma_field := field_of "mongoalchemy.fields.m" "T" true None None in
  let model := {| doc_name := "Doc"; is_document := true;
                  get_fields := <["f" := ma_field]> ∅ |} in
  let self := ModelConverter (Some (<["m.T" := conv_String]> ∅)) in
  get_fields model !! "f" = Some ma_field
  /\ qualified_name ma_field = "mongoalchemy.fields.m.T"
  /\ type_name ma_field = "T"
  /\ converters self !! qualified_name ma_field = None
  /\ converters self !! type_name ma_field = None
  /\ type_string ma_field = "m.T"
  /\ (exists wtfield, convert self model ma_field None ∅ = (Ok (Some wtfield), ∅))
  /\ exists form,
       model_form model "Form" None None None (Some self) ∅ = (Ok form, ∅)
       /\ is_Some (fc_fields form !! "f").
Proof.
  cbv zeta. split; [vm_compute; reflexivity|]. split; [reflexivity|].
  split; [reflexivity|]. split; [vm_compute; reflexivity|].
  split; [vm_compute; reflexivity|]. split; [reflexivity|].
  split; eexists; [vm_compute; reflexivity|].
  split; [vm_compute; reflexivity|]. vm_compute. eauto.
Qed.

(** C7 as stated fails at [Person.nick]: a string field that declares the
    bound [max = 0], is converted to a form field, and gets no [Length]
    validator, zero being false to the test [ma_field.min or ma_field.max]. *)
Lemma zero_bound_gets_no_length :
  let nick := field_of "mongoalchemy.fields" "StringField" false None (Some 0) in
  get_fields Person !! "nick" = Some nick
  /\ select_converter (ModelConverter None) nick = Some conv_String
  /\ ma_max nick = Some 0
  /\ forall lists : Lists, exists wtfield,
       convert (ModelConverter None) Person nick None lists = (Ok (Some wtfield), lists)
       /\ ~ Length (ma_min nick) (ma_max nick) ∈ field_validators lists wtfield
       /\ forall lo hi, ~ Length lo hi ∈ field_validators lists wtfield.
Proof.
  cbv zeta. split; [vm_compute; reflexivity|].
  split; [apply string_field_dispatch; reflexivity|]. split; [reflexivity|].
  intros lists. eexists. split; [vm_compute; reflexivity|].
  split; [|intros lo hi]; intros Hin; apply list_elem_of_In in Hin;
    simpl in Hin; destruct Hin as [Hin|[]]; discriminate Hin.
Qed.

(** C7 as amended, on the example: [Person.name], required and bounded by
    1 and 40, gets [Length 1 40]; [Person.nick], not required, gets
    [Optional]. *)
Lemma injected_validators_witness :
  let name_field := field_of "mongoalchemy.fields" "StringField" true (Some 1) (Some 40) in
  let nick := field_of "mongoalchemy.fields" "StringField" false None (Some 0) in
  select_converter (ModelConverter None) name_field = Some conv_String
  /\ select_converter (ModelConverter None) nick = Some conv_String
  /\ truthy (ma_min name_field) || truthy (ma_max name_field) = true
  /\ required nick = false
  /\ (exists wtfield lists',
        convert (ModelConverter None) Person name_field None ∅ = (Ok (Some wtfield), lists')
        /\ Length (Some 1) (Some 40) ∈ field_validators lists' wtfield)
  /\ (exists wtfield lists',
        convert (ModelConverter None) Person nick None ∅ = (Ok (Some wtfield), lists')
        /\ Optional ∈ field_validators lists' wtfield).
Proof.
  cbv zeta.
  assert (Hname : select_converter (ModelConverter None)
                    (field_of "mongoalchemy.fields" "StringField" true (Some 1) (Some 40))
                  = Some conv_String) by (apply string_field_dispatch; reflexivity).
  assert (Hnick : select_converter (ModelConverter None)
                    (field_of "mongoalchemy.fields" "StringField" false None (Some 0))
                  = Some conv_String) by (apply string_field_dispatch; reflexivity).
  split; [exact Hname|]. split; [exact Hnick|]. split; [reflexivity|]. split; [reflexivity|].
  split; eexists _, _; (split; [vm_compute; reflexivity|]).
  - apply (injected_validators None Person
             (field_of "mongoalchemy.fields" "StringField" true (Some 1) (Some 40)) None _
             ∅ _ ltac:(vm_compute; reflexivity) (or_intror Hname)); [exact Hname|reflexivity].
  - apply (injected_validators None Person
             (field_of "mongoalchemy.fields" "StringField" false None (Some 0)) None _
             ∅ _ ltac:(vm_compute; reflexivity) (or_intror Hnick)). reflexivity.
Defined.

(** C9 on the example: a form that carries another [mongo_id] and a new
    name changes the name and not the key. *)
Lemma update_from_form_spares_mongo_id_witness :
  let ada := person "4d5e6f708192a3b4c5d6e7f8" "Ada" in
  let posted := [{| name := "mongo_id"; data := PyStr "4d5e6f708192a3b4c5d6e7f9" |};
                 {| name := "name"; data := PyStr "Eve" |}] in
  NoDup (map name posted)
  /\ get_model_key (update_from_form ada posted) = Some (PyStr "4d5e6f708192a3b4c5d6e7f8")
  /\ getattr (update_from_form ada posted) "name" = Some (PyStr "Eve").
Proof.
  cbv zeta.
  assert (Hnodup : NoDup (map name
            [{| name := "mongo_id"; data := PyStr "4d5e6f708192a3b4c5d6e7f9" |};
             {| name := "name"; data := PyStr "Eve" |}])).
  { simpl. apply NoDup_cons. split.
    - intros Hin. apply list_elem_of_In in Hin. simpl in Hin.
      destruct Hin as [Hin|[]]. discriminate Hin.
    - apply NoDup_singleton. }
  split; [exact Hnodup|].
  destruct (update_from_form_spares_mongo_id (person "4d5e6f708192a3b4c5d6e7f8" "Ada")
              [{| name := "mongo_id"; data := PyStr "4d5e6f708192a3b4c5d6e7f9" |};
               {| name := "name"; data := PyStr "Eve" |}]) as (Hkey & _ & Hcopy & _).
  split.
  - rewrite Hkey. vm_compute. reflexivity.
  - apply (Hcopy Hnodup {| name := "name"; data := PyStr "Eve" |}); [listed|discriminate].
Defined.

(** C10 on the example: a key that is no object id gives [False]; an
    object id that no person has gives [True] and the same collection. *)
Lemma delete_model_instance_verdict_witness :
  let absent := "4d5e6f708192a3b4c5d6e7f0" in
  get_model_class person_store "Person" = Some Person
  /\ wrap_key (ObjectId:=string) "not-an-id" = InvalidId
  /\ wrap_key (ObjectId:=string) absent = Wrapped absent
  /\ (forall doc, doc ∈ collection people Person -> instance_has_id absent doc = false)
  /\ (delete_model_instance (ObjectId:=string) person_store "Person" "not-an-id" people).1
     = Ok false
  /\ (delete_model_instance (ObjectId:=string) person_store "Person" absent people).1
     = Ok true
  /\ collection (delete_model_instance (ObjectId:=string) person_store "Person" absent
                   people).2 Person
     = collection people Person.
Proof.
  cbv zeta.
  assert (Hcls : get_model_class person_store "Person" = Some Person)
    by (vm_compute; reflexivity).
  assert (Hwrap : wrap_key (ObjectId:=string) "4d5e6f708192a3b4c5d6e7f0"
                  = Wrapped "4d5e6f708192a3b4c5d6e7f0") by (vm_compute; reflexivity).
  assert (Hnone : forall doc, doc ∈ collection people Person ->
                    instance_has_id "4d5e6f708192a3b4c5d6e7f0" doc = false).
  { intros doc Hdoc. apply list_elem_of_In in Hdoc. vm_compute in Hdoc.
    destruct Hdoc as [<-|[<-|[<-|[]]]]; vm_compute; reflexivity. }
  split; [exact Hcls|]. split; [vm_compute; reflexivity|]. split; [exact Hwrap|].
  split; [exact Hnone|]. split; [vm_compute; reflexivity|].
  destruct (delete_model_instance_verdict (ObjectId:=string) person_store "Person"
              "4d5e6f708192a3b4c5d6e7f0" Person people Hcls) as (_ & _ & Hsame).
  exact (Hsame _ Hwrap Hnone).
Defined.

(** * Further properties of the admin blueprint *)

(** [dict(pairs)] read through [list_to_map]: the pairs in reverse, so that
    the last pair of a key is the one found. *)
Lemma dict_of_pairs_foldl {V} (l : list (string * V)) (m : gmap string V) :
  foldl (fun m kv => <[kv.1 := kv.2]> m) m l = list_to_map (reverse l) ∪ m.
Proof.
  revert m. induction l as [|[k v] l IH]; intros m; simpl.
  - rewrite (left_id_L ∅ (∪)). reflexivity.
  - rewrite IH, reverse_cons, list_to_map_app. simpl.
    rewrite <- (assoc_L (∪)). f_equal.
    rewrite insert_empty. apply insert_union_singleton_l.
Qed.

Lemma dict_of_pairs_list_to_map {V} (l : list (string * V)) :
  dict_of_pairs l = list_to_map (reverse l).
Proof.
  unfold dict_of_pairs. rewrite dict_of_pairs_foldl. apply (right_id_L ∅ (∪)).
Qed.

Lemma dict_of_pairs_lookup_Some {V} (l : list (string * V)) k v :
  dict_of_pairs l !! k = Some v -> (k, v) ∈ l.
Proof.
  rewrite dict_of_pairs_list_to_map. intros Hk.
  apply elem_of_list_to_map_2 in Hk. rewrite elem_of_reverse in Hk. exact Hk.
Qed.

Lemma dict_of_pairs_lookup_is_Some {V} (l : list (string * V)) k v :
  (k, v) ∈ l -> is_Some (dict_of_pairs l !! k).
Proof.
  rewrite dict_of_pairs_list_to_map. intros Hk.
  apply not_eq_None_Some. intros Hnone.
  apply not_elem_of_list_to_map in Hnone. apply Hnone.
  apply list_elem_of_fmap. exists (k, v). split; [reflexivity|].
  rewrite elem_of_reverse. exact Hk.
Qed.

(** X1. What [create_admin_blueprint] registers: every registered class is
    a declarative class and is not entered under the name [Base]; from a
    module it is the attribute of that name, from an iterable it is one of
    its classes, entered under its own [__name__]. Conversely every
    declarative attribute of a module not called [Base] is registered, and
    the name of every declarative class of an iterable, unless it is [Base],
    is registered. *)
Theorem discover_registers_declarative_classes (models : Models) :
  (forall n m, discover models !! n = Some m ->
     is_declarative m = true /\ n <> "Base"
     /\ match models with
        | ModelsModule d => d !! n = Some m
        | ModelsIterable l => m ∈ l /\ __name__ m = n
        end)
  /\ match models with
     | ModelsModule d =>
         forall n m, d !! n = Some m -> is_declarative m = true -> n <> "Base" ->
           discover models !! n = Some m
     | ModelsIterable l =>
         forall m, m ∈ l -> is_declarative m = true -> __name__ m <> "Base" ->
           is_Some (discover models !! __name__ m)
     end.
Proof.
  destruct models as [d|l]; simpl; split.
  - intros n m Hn. apply map_lookup_filter_Some in Hn as [Hd [Hdecl Hbase]]. auto.
  - intros n m Hd Hdecl Hbase. apply map_lookup_filter_Some. auto.
  - intros n m Hn. apply dict_of_pairs_lookup_Some in Hn.
    apply list_elem_of_fmap in Hn as (c & Heq & Hc). injection Heq as -> ->.
    apply list_elem_of_In, filter_In in Hc as [Hc Hp].
    apply andb_true_iff in Hp as [Hdecl Hbase].
    apply negb_true_iff, String.eqb_neq in Hbase.
    split; [exact Hdecl|]. split; [exact Hbase|]. split; [|reflexivity].
    apply list_elem_of_In, Hc.
  - intros m Hm Hdecl Hbase. apply (dict_of_pairs_lookup_is_Some _ _ m).
    apply list_elem_of_fmap. exists m. split; [reflexivity|].
    apply list_elem_of_In, filter_In. split; [apply list_elem_of_In, Hm|].
    rewrite Hdecl. simpl. apply negb_true_iff, String.eqb_neq, Hbase.
Qed.

Section FormRegistry.

Context {FormClass Form : Type} `{AdminHelpers FormClass Form}.

(** The override loop, pair by pair, over distinct names. *)
Lemma override_loop_lookup (l : list (string * FormClass)) :
  NoDup l.*1 ->
  forall (fd : gmap string FormClass) k,
    foldl (fun fd mf => if decide (is_Some (fd !! mf.1))
                        then <[mf.1 := mf.2]> fd else fd) fd l !! k
    = match fd !! k with
      | Some f => Some (default f ((list_to_map l : gmap string FormClass) !! k))
      | None => None
      end.
Proof.
  induction l as [|[n g] l IH]; intros Hnodup fd k; simpl.
  - rewrite lookup_empty. destruct (fd !! k); reflexivity.
  - simpl in Hnodup. apply NoDup_cons in Hnodup as [Hfresh Hnodup].
    rewrite (IH Hnodup).
    destruct (decide (n = k)) as [->|Hne].
    + rewrite lookup_insert_eq.
      rewrite (not_elem_of_list_to_map_1 _ _ Hfresh).
      destruct (decide (is_Some (fd !! k))) as [[f Hf]|Hnone].
      * rewrite lookup_insert_eq, Hf. reflexivity.
      * destruct (fd !! k) eqn:Hf; [exfalso; apply Hnone; eauto|reflexivity].
    + rewrite (lookup_insert_ne _ n k) by exact Hne.
      destruct (decide (is_Some (fd !! n))); [rewrite lookup_insert_ne by exact Hne|];
        reflexivity.
Qed.

(** X2. The forms of the blueprint: no form dictionary when no model is
    registered; otherwise a dictionary with exactly the registered names,
    holding for each the form given under that name in [model_forms] when
    there is one, and the generated form otherwise. Names of [model_forms]
    that are not registered are ignored. *)
Theorem build_form_dict_lookup (model_dict : gmap string ModelClass)
  (model_forms : option (gmap string FormClass)) (exclude_pks : bool) :
  (model_dict = ∅ -> build_form_dict model_dict model_forms exclude_pks = None)
  /\ (model_dict <> ∅ ->
      exists fd,
        build_form_dict model_dict model_forms exclude_pks = Some fd
        /\ forall n,
             fd !! n = match model_dict !! n with
                       | Some model =>
                           Some (default (_form_for_model model exclude_pks)
                                         (default ∅ model_forms !! n))
                       | None => None
                       end).
Proof.
  unfold build_form_dict. split.
  - intros ->. rewrite map_size_empty. reflexivity.
  - intros Hne. destruct (decide (size model_dict = 0%nat)) as [Hz|_].
    + apply map_size_empty_iff in Hz. contradiction.
    + eexists. split; [reflexivity|]. intros n. unfold override_forms.
      rewrite override_loop_lookup by apply NoDup_fst_map_to_list.
      rewrite list_to_map_to_list, lookup_fmap.
      destruct (model_dict !! n); reflexivity.
Qed.

End FormRegistry.

Section MoreViewProperties.

Context {Sess : Type} `{SessionOps Sess}.
Context {FormClass Form Field : Type} `{FormLib FormClass Form Field}.
Context `{AdminHelpers FormClass Form}.
Context `{PyInterpreter}.

Implicit Types (model_dict : gmap string ModelClass).
Implicit Types (fd : gmap string FormClass).
Implicit Types (w : World Sess) (req : Request).

(** X3. A POST to the edit view of a registered model, when exactly one
    instance has the key: if the posted form validates, the instance as
    populated from the form is added to the session, the session is
    committed and the answer is a redirect to the list view; if not, the
    edit page is rendered again with the validated form and the instance as
    it was found, and the session is only queried. *)
Theorem edit_post_saves_or_rerenders model_dict fd (model_name model_key : string)
  (model : ModelClass) (model_form : FormClass) (found : Instance) req w :
  model_dict !! model_name = Some model ->
  fd !! model_name = Some model_form ->
  List.filter (row_matches (Sess:=Sess) (_get_pk_name model) model_key)
              (session_rows (db_session w) model) = [found] ->
  method req = POST ->
  let submitted := form_new model_form (Some (form req)) (Some found) in
  let validated := (form_validate submitted).2 in
  let saved := _populate_model_from_form found validated in
  ((form_validate submitted).1 = true ->
   edit model_dict (Some fd) model_name model_key req w =
     (Ok (Redirect (url_for ".list_view" [("model_name", model_name)])),
      {| db_session := session_commit (session_add saved (db_session w));
         db_calls := db_calls w ++ [CallQuery (__name__ model); CallAdd saved; CallCommit];
         flashes := flashes w ++
           [("success", model_name +:+ " updated: " +:+ instance_str model saved)] |}))
  /\
  ((form_validate submitted).1 = false ->
   edit model_dict (Some fd) model_name model_key req w =
     (Ok (Template "admin/edit.html"
            [("admin_models", admin_models model_dict);
             ("model_instance", CtxInstance found);
             ("model_name", CtxStr model_name);
             ("form", CtxForm validated);
             ("has_file_field",
              CtxFields (List.filter is_file_field (form_fields submitted)))]),
      {| db_session := db_session w;
         db_calls := db_calls w ++ [CallQuery (__name__ model)];
         flashes := flashes w ++
           [("error", "There was an error processing your form. This "
                      +:+ model_name +:+ " has not been saved.")] |})).
Proof.
  intros Hreg Hform Hone Hpost submitted validated saved.
  subst submitted validated saved. unfold edit. rewrite Hreg.
  split; intros Hvalid; run; rewrite Hform; simpl;
    unfold query_one, query_all, query_filter_by; simpl; rewrite Hone, Hpost;
    destruct (form_validate (form_new model_form (Some (form req)) (Some found)))
      as [valid validated]; simpl in *; subst valid; simpl;
    rewrite <- ?app_assoc; reflexivity.
Qed.

(** X4. The edit view of a registered model on GET renders the edit page
    with a form built from the instance found and no posted data; when no
    instance has the key it answers [<model_name> not found: <key>]. In both
    cases the session is queried once and nothing else happens to the
    world. *)
Theorem edit_get_renders_or_reports model_dict fd (model_name model_key : string)
  (model : ModelClass) (model_form : FormClass) req w :
  model_dict !! model_name = Some model ->
  fd !! model_name = Some model_form ->
  let matching :=
    List.filter (row_matches (Sess:=Sess) (_get_pk_name model) model_key)
                (session_rows (db_session w) model) in
  let queried :=
    {| db_session := db_session w;
       db_calls := db_calls w ++ [CallQuery (__name__ model)];
       flashes := flashes w |} in
  (forall found, matching = [found] -> method req = GET ->
     edit model_dict (Some fd) model_name model_key req w =
       (Ok (Template "admin/edit.html"
              [("admin_models", admin_models model_dict);
               ("model_instance", CtxInstance found);
               ("model_name", CtxStr model_name);
               ("form", CtxForm (form_new model_form None (Some found)));
               ("has_file_field",
                CtxFields (List.filter is_file_field
                             (form_fields (form_new model_form None (Some found)))))]),
        queried))
  /\ (matching = [] ->
      edit model_dict (Some fd) model_name model_key req w =
        (Ok (Body (model_name +:+ " not found: " +:+ model_key)), queried)).
Proof.
  intros Hreg Hform matching queried. subst matching queried. unfold edit. rewrite Hreg.
  split; [intros found Hone Hget | intros Hnone]; run; rewrite Hform; simpl;
    unfold query_one, query_all, query_filter_by; simpl;
    [rewrite Hone, Hget | rewrite Hnone]; reflexivity.
Qed.

(** X5. When two or more instances of a registered model have the key, the
    delete view, and the edit view once it has its form, raise
    [MultipleResultsFound]: nothing is deleted, added or committed. *)
Theorem several_rows_raise model_dict fd (model_name model_key : string)
  (model : ModelClass) (model_form : FormClass) (a b : Instance) (rest : list Instance)
  req w :
  model_dict !! model_name = Some model ->
  fd !! model_name = Some model_form ->
  List.filter (row_matches (Sess:=Sess) (_get_pk_name model) model_key)
              (session_rows (db_session w) model) = a :: b :: rest ->
  let queried :=
    {| db_session := db_session w;
       db_calls := db_calls w ++ [CallQuery (__name__ model)];
       flashes := flashes w |} in
  delete (Form:=Form) (Field:=Field) model_dict model_name model_key req w
    = (Raise MultipleResultsFound, queried)
  /\ edit (Field:=Field) model_dict (Some fd) model_name model_key req w
     = (Raise MultipleResultsFound, queried).
Proof.
  intros Hreg Hform Hmany queried. subst queried. unfold delete, edit. rewrite Hreg.
  split; run; rewrite ?Hform; simpl; unfold query_one, query_all, query_filter_by; simpl;
    rewrite Hmany; reflexivity.
Qed.

Lemma only_queried_refl w : only_queried w w.
Proof.
  split; [reflexivity|]. split; [reflexivity|]. exists []. split; [|reflexivity].
  symmetry. apply app_nil_r.
Qed.

Lemma only_queried_one w (m : string) :
  only_queried w {| db_session := db_session w;
                    db_calls := db_calls w ++ [CallQuery m];
                    flashes := flashes w |}.
Proof.
  split; [reflexivity|]. split; [reflexivity|]. exists [CallQuery m]. split; reflexivity.
Qed.

(** X6. Requests that only read: the index view, the list view, and the
    add and edit views under any method but POST leave the session and the
    flashed messages as they were and make no call on the session but
    queries, whatever the registry, the names, the keys and the request, and
    whether they answer or raise. *)
Theorem reading_views_only_query model_dict
  (form_dict : option (gmap string FormClass)) (page_size : Z)
  (model_name model_key : string) req w :
  only_queried w (index (Form:=Form) (Field:=Field) model_dict req w).2
  /\ only_queried w
       (list_view (Form:=Form) (Field:=Field) model_dict page_size model_name req w).2
  /\ (method req <> POST ->
      only_queried w (add (Field:=Field) model_dict form_dict model_name req w).2
      /\ only_queried w
           (edit (Field:=Field) model_dict form_dict model_name model_key req w).2).
Proof.
  split; [apply only_queried_refl|]. split; [|intros Hmethod; split].
  - unfold list_view. destruct (model_dict !! model_name); [|apply only_queried_refl].
    run. destruct (py_int (multidict_get "page" "1" (args req))); apply only_queried_one.
  - unfold add. destruct (model_dict !! model_name); [|apply only_queried_refl].
    run. unfold form_dict_item.
    destruct form_dict as [d|]; [|apply only_queried_refl].
    destruct (d !! model_name); [|apply only_queried_refl]. simpl.
    destruct (method req); try apply only_queried_refl. contradiction.
  - unfold edit. destruct (model_dict !! model_name); [|apply only_queried_refl].
    run. unfold form_dict_item.
    destruct form_dict as [d|]; [|apply only_queried_refl].
    destruct (d !! model_name); [|apply only_queried_refl]. simpl.
    destruct (query_one _); try apply only_queried_one.
    destruct (method req); try apply only_queried_one. contradiction.
Qed.

Lemma multidict_get_absent (k default : string) (d : MultiDict) :
  (forall v, (k, v) ∉ d) -> multidict_get k default d = default.
Proof.
  induction d as [|[k' v] d IH]; intros Habs; simpl; [reflexivity|].
  destruct (String.eqb_spec k k') as [->|_].
  - exfalso. apply (Habs v). left.
  - apply IH. intros v' Hin. apply (Habs v'). right. exact Hin.
Qed.

(** The instances the list view lists, read off its response. *)
Lemma list_view_lists model_dict (page_size : Z) (model_name : string)
  (model : ModelClass) req w (n : Z) :
  model_dict !! model_name = Some model ->
  py_int (multidict_get "page" "1" (args req)) = Ok n ->
  listed_instances
    (list_view (Form:=Form) (Field:=Field) model_dict page_size model_name req w).1
  = take (Z.to_nat page_size)
         (drop (Z.to_nat ((n - 1) * page_size)) (session_rows (db_session w) model)).
Proof.
  intros Hreg Hpage. rewrite (list_view_runs _ _ _ _ _ _ _ Hreg Hpage). reflexivity.
Qed.

(** X7. The page argument of the list view: a request without [page] is
    answered with the first page, the first [page_size] instances, on every
    interpreter; and when [int] refuses the [page] it is given, the view
    raises what [int] raised, the session having been queried and nothing
    else. *)
Theorem list_view_page_argument model_dict (page_size : Z) (model_name : string)
  (model : ModelClass) req w :
  model_dict !! model_name = Some model ->
  ((forall v, ("page", v) ∉ args req) ->
   listed_instances
     (list_view (Form:=Form) (Field:=Field) model_dict page_size model_name req w).1
   = take (Z.to_nat page_size) (session_rows (db_session w) model))
  /\ (forall e, py_int (multidict_get "page" "1" (args req)) = Raise e ->
      list_view (Form:=Form) (Field:=Field) model_dict page_size model_name req w
      = (Raise e,
         {| db_session := db_session w;
            db_calls := db_calls w ++ [CallQuery (__name__ model)];
            flashes := flashes w |})).
Proof.
  intros Hreg. split.
  - intros Habs. rewrite (list_view_lists _ _ _ model _ _ 1 Hreg).
    + reflexivity.
    + rewrite (multidict_get_absent _ _ _ Habs). reflexivity.
  - intros e Hbad. unfold list_view. rewrite Hreg. run. rewrite Hbad. reflexivity.
Qed.

(** X8. Pages tile the rows: the instances listed for pages 1, 2, ..., k of
    a registered model over the same session, one after the other, are the
    first [k * page_size] instances of the model, none twice and none
    left out. *)
Theorem pages_tile_the_rows model_dict (page_size : Z) (model_name : string)
  (model : ModelClass) w (reqs : list Request) :
  model_dict !! model_name = Some model ->
  0 <= page_size ->
  (forall (i : nat) req, reqs !! i = Some req ->
     py_int (multidict_get "page" "1" (args req)) = Ok (Z.of_nat i + 1)) ->
  concat (map (fun req =>
                 listed_instances
                   (list_view (Form:=Form) (Field:=Field) model_dict page_size model_name
                      req w).1) reqs)
  = take (length reqs * Z.to_nat page_size) (session_rows (db_session w) model).
Proof.
  intros Hreg Hsize. induction reqs as [|req reqs IH] using rev_ind; intros Hpages.
  - reflexivity.
  - rewrite map_app, concat_app, length_app. simpl. rewrite app_nil_r.
    rewrite IH.
    + rewrite (list_view_lists _ _ _ model _ _ (Z.of_nat (length reqs) + 1) Hreg).
      * replace (Z.to_nat ((Z.of_nat (length reqs) + 1 - 1) * page_size))
          with (length reqs * Z.to_nat page_size)%nat
          by (rewrite Z2Nat.inj_mul by lia; rewrite Z.add_simpl_r, Nat2Z.id; reflexivity).
        rewrite take_take_drop. f_equal. lia.
      * apply Hpages. rewrite lookup_app_r by reflexivity.
        rewrite Nat.sub_diag. reflexivity.
    + intros i r Hi. apply Hpages. rewrite lookup_app_l; [exact Hi|].
      apply lookup_lt_Some in Hi. exact Hi.
Qed.

Lemma str_le_total : Total str_le.
Proof. intros a b. apply String.leb_total. Qed.

(** X9. The index view hands its template the registered model names, each
    once, in ascending order, and does not touch the world. *)
Theorem index_lists_sorted_names model_dict req w :
  exists names,
    index (Form:=Form) (Field:=Field) model_dict req w
    = (Ok (Template "admin/index.html" [("admin_models", CtxNames names)]), w)
    /\ Sorted str_le names
    /\ NoDup names
    /\ forall n, n ∈ names <-> is_Some (model_dict !! n).
Proof.
  exists (sorted (map fst (map_to_list model_dict))). split; [reflexivity|].
  assert (Hperm : sorted (map fst (map_to_list model_dict)) ≡ₚ (map_to_list model_dict).*1)
    by apply merge_sort_Permutation.
  split; [apply (@Sorted_merge_sort _ str_le _ str_le_total)|].
  split.
  - rewrite Hperm. apply NoDup_fst_map_to_list.
  - intros n. rewrite Hperm. rewrite list_elem_of_fmap. split.
    + intros ([k v] & -> & Hin). apply elem_of_map_to_list in Hin. simpl. eauto.
    + intros [v Hv]. exists (n, v). split; [reflexivity|].
      apply elem_of_map_to_list. exact Hv.
Qed.

End MoreViewProperties.

(** * Further properties of the MongoAlchemy form generation *)

Section MoreFormGeneration.

Implicit Types (self : ConverterObject) (model : DocumentClass).
Implicit Types (ma_field : MaField) (kwargs : Kwargs) (lists : Lists).

(** X10. The table of [ModelConverter(extra_converters)]: [StringField] and
    [ObjectIdField] always go to the module's own [conv_String] and
    [conv_ObjectId], also when the caller's table has entries under these
    names; every other name is as in the caller's table. *)
Theorem own_converters_take_precedence
  (extra_converters : option (gmap string Converter)) (k : string) :
  converters (ModelConverter extra_converters) !! k
  = if decide (k = "StringField") then Some conv_String
    else if decide (k = "ObjectIdField") then Some conv_ObjectId
    else default ∅ extra_converters !! k.
Proof. exact (ModelConverter_lookup extra_converters k). Qed.

Lemma prefix_empty (s : string) : String.prefix "" s = true.
Proof. destruct s; reflexivity. Qed.

(** X11. The key [convert] looks a field type up under first: when the
    module of the type starts with [mongoalchemy.fields], the key is what
    follows these 19 characters and one more, whatever that one is; so a
    type of the module [mongoalchemy.fields] itself is looked up under its
    bare class name, and a type of a submodule [mongoalchemy.fields.m]
    under [m.<class name>]. *)
Theorem type_string_cut ma_field :
  (forall rest, type_module ma_field = "mongoalchemy.fields" +:+ rest ->
     type_string ma_field = string_drop 1 (rest +:+ "." +:+ type_name ma_field))
  /\ (type_module ma_field = "mongoalchemy.fields" ->
      type_string ma_field = type_name ma_field)
  /\ (forall m, type_module ma_field = "mongoalchemy.fields." +:+ m ->
        type_string ma_field = m +:+ "." +:+ type_name ma_field).
Proof.
  assert (Hcut : forall rest, type_module ma_field = "mongoalchemy.fields" +:+ rest ->
            type_string ma_field = string_drop 1 (rest +:+ "." +:+ type_name ma_field)).
  { intros rest Hm. unfold type_string. rewrite Hm. simpl.
    rewrite prefix_empty. reflexivity. }
  split; [exact Hcut|]. split.
  - intros Hm. rewrite (Hcut ""); [reflexivity|]. rewrite Hm. reflexivity.
  - intros m Hm. rewrite (Hcut ("." +:+ m)); [reflexivity|]. rewrite Hm. reflexivity.
Qed.

(** X12. A field that goes to [conv_ObjectId], the key of a document: when
    the caller's [field_args] for it give no [widget], it becomes a text
    field under the disabled text input, whose validators are, when
    [convert] has returned, those of the caller's list for it followed by
    [Optional] if it is not required, and no other; when they give a
    widget, [convert] raises [TypeError]. *)
Theorem object_id_field_is_disabled self model ma_field (field_args : option FieldArgs)
  lists :
  select_converter self ma_field = Some conv_ObjectId ->
  (field_args ≫= fa_widget = None ->
   exists kwargs lists',
     convert self model ma_field field_args lists = (Ok (Some (TextField kwargs)), lists')
     /\ kw_widget kwargs = Some DisabledTextInput
     /\ list_items lists' (kw_validators kwargs)
        = (given_items lists field_args
           ++ (if required ma_field then [] else [Optional]))%list)
  /\ (forall widget, field_args ≫= fa_widget = Some widget ->
        (convert self model ma_field field_args lists).1 = Raise TypeError).
Proof.
  intros Hsel. unfold convert.
  destruct (convert_kwargs_spec ma_field field_args lists) as (Hw & _ & Hitems & _).
  cbv zeta in *.
  destruct (convert_kwargs ma_field field_args lists) as [kwargs lists1].
  cbn [fst snd] in *. rewrite Hsel, conv_ObjectId_spec, Hw. split.
  - intros ->. eexists _, _. split; [reflexivity|]. split; [reflexivity|]. exact Hitems.
  - intros widget ->. reflexivity.
Qed.


(** [convert] finds its converter under [dispatch_key]. *)
Lemma select_by_key self ma_field :
  select_converter self ma_field = converters self !! dispatch_key self ma_field.
Proof.
  unfold select_converter, dispatch_key. cbn [map first_converter].
  destruct (converters self !! type_string ma_field) as [c|] eqn:Hq.
  - rewrite bool_decide_eq_true_2 by eauto. rewrite Hq. reflexivity.
  - rewrite bool_decide_eq_false_2 by (intros [c Hc]; discriminate Hc).
    destruct (converters self !! type_name ma_field); reflexivity.
Qed.

(** With the table of the module alone, a field goes to [conv_String], to
    [conv_ObjectId], or is not converted. *)
Lemma default_selection ma_field :
  (dispatch_key (ModelConverter None) ma_field = "StringField"
   /\ select_converter (ModelConverter None) ma_field = Some conv_String)
  \/ (dispatch_key (ModelConverter None) ma_field <> "StringField"
      /\ select_converter (ModelConverter None) ma_field = Some conv_ObjectId)
  \/ (dispatch_key (ModelConverter None) ma_field <> "StringField"
      /\ select_converter (ModelConverter None) ma_field = None).
Proof.
  rewrite select_by_key, ModelConverter_lookup.
  destruct (decide (dispatch_key (ModelConverter None) ma_field = "StringField"))
    as [Hs|Hs]; [left; split; [exact Hs|reflexivity]|].
  destruct (decide (dispatch_key (ModelConverter None) ma_field = "ObjectIdField"));
    [right; left; split; [exact Hs|reflexivity]|].
  right. right. split; [exact Hs|]. simpl. apply lookup_empty.
Qed.

(** The form field the converters of the module build does not depend on
    what the caller's lists hold. *)
Lemma convert_kwargs_result ma_field (field_args : option FieldArgs) lists lists0 :
  (convert_kwargs ma_field field_args lists).1
  = (convert_kwargs ma_field field_args lists0).1.
Proof.
  unfold convert_kwargs. destruct (required ma_field); [reflexivity|]. simpl.
  unfold append_validator, list_append.
  destruct (kw_validators _); reflexivity.
Qed.

Lemma conv_String_result model ma_field kwargs lists lists0 :
  (conv_String model ma_field kwargs lists).1
  = (conv_String model ma_field kwargs lists0).1.
Proof.
  unfold conv_String.
  destruct (truthy (ma_min ma_field) || truthy (ma_max ma_field)); [|reflexivity].
  unfold append_validator, list_append.
  destruct (kw_validators kwargs); reflexivity.
Qed.

Lemma convert_own_result model ma_field (field_args : option FieldArgs) lists lists0 :
  (convert (ModelConverter None) model ma_field field_args lists).1
  = (convert (ModelConverter None) model ma_field field_args lists0).1.
Proof.
  unfold convert.
  pose proof (convert_kwargs_result ma_field field_args lists lists0) as Hk.
  destruct (convert_kwargs ma_field field_args lists) as [kwargs lists1].
  destruct (convert_kwargs ma_field field_args lists0) as [kwargs0 lists2].
  simpl in Hk. subst kwargs0.
  destruct (default_selection ma_field) as [[_ Hsel]|[[_ Hsel]|[_ Hsel]]]; rewrite Hsel.
  - apply conv_String_result.
  - rewrite !conv_ObjectId_spec. reflexivity.
  - reflexivity.
Qed.


(** A call of [convert] that is given no list of the caller leaves the
    caller's lists alone. *)
Lemma convert_own_no_list model ma_field (field_args : option FieldArgs) lists :
  field_args ≫= fa_validators = None ->
  (convert (ModelConverter None) model ma_field field_args lists).2 = lists.
Proof.
  intros Hnone. unfold convert.
  destruct (convert_kwargs_spec ma_field field_args lists) as (_ & Hl & _ & Hsame & _).
  cbv zeta in *. specialize (Hsame Hnone). rewrite Hnone in Hl.
  destruct (convert_kwargs ma_field field_args lists) as [kwargs lists1].
  cbn [fst snd] in *. subst lists1.
  destruct (default_selection ma_field) as [[_ Hsel]|[[_ Hsel]|[_ Hsel]]]; rewrite Hsel.
  - destruct (conv_String_spec model ma_field kwargs lists)
      as (kwargs' & lists2 & Hrun & _ & _ & Hnew & _).
    rewrite Hrun. cbn [snd]. exact (proj1 (Hnew _ Hl)).
  - rewrite conv_ObjectId_spec. reflexivity.
  - reflexivity.
Qed.










(** Without [field_args] and with the converters of the module,
    [model_form] leaves the caller's lists as they are and builds the same
    form whatever they hold. *)
Lemma loop_without_field_args model (l : list (string * MaField)) :
  forall acc lists,
    model_fields_loop (ModelConverter None) model ∅ l acc lists
    = ((model_fields_loop (ModelConverter None) model ∅ l acc ∅).1, lists).
Proof.
  induction l as [|[n' f'] l IH]; intros acc lists; simpl; [reflexivity|].
  rewrite lookup_empty.
  pose proof (convert_own_result model f' None lists ∅) as Hres.
  pose proof (convert_own_no_list model f' None lists eq_refl) as Hsame.
  pose proof (convert_own_no_list model f' None ∅ eq_refl) as Hsame0.
  destruct (convert (ModelConverter None) model f' None lists) as [r lists1].
  destruct (convert (ModelConverter None) model f' None ∅) as [r0 lists2].
  cbn [fst snd] in *. subst r0 lists1 lists2.
  destruct r as [[wt|]|e]; [| |reflexivity]; rewrite (IH _ lists); reflexivity.
Qed.

Lemma form_without_field_args model (base_class : string)
  (only exclude : option (list string)) lists :
  model_form model base_class only exclude None None lists
  = ((model_form model base_class only exclude None None ∅).1, lists).
Proof.
  unfold model_form, model_fields.
  destruct (is_document model); [|reflexivity]. cbn [negb default].
  rewrite (loop_without_field_args model _ ∅ lists).
  destruct (model_fields_loop (ModelConverter None) model ∅ _ ∅ ∅) as [[d|e] lists0];
    reflexivity.
Qed.



End MoreFormGeneration.

(** * Further properties of the MongoAlchemy datastore *)

Section MoreDatastore.

Context {ObjectId : Type} `{Bson ObjectId}.

Implicit Types (model_instance : MongoInstance) (form : list BoundField).
Implicit Types (self : MongoAlchemyDatastore) (db : MongoSession).






(** What a form writes under a name does not depend on the instance it is
    written to. *)
Lemma update_from_form_written form : forall model_instance other (a : string),
  a ∈ map name form -> a <> "mongo_id" ->
  getattr (update_from_form model_instance form) a
  = getattr (update_from_form other form) a.
Proof.
  induction form as [|field rest IH]; intros model_instance other a Hin Hne.
  - apply elem_of_nil in Hin. contradiction.
  - simpl. destruct (decide (a ∈ map name rest)) as [Hrest|Hrest].
    + destruct (negb (String.eqb (name field) "mongo_id")); apply IH; assumption.
    + simpl in Hin. apply elem_of_cons in Hin as [->|Hin]; [|contradiction].
      destruct (String.eqb_spec (name field) "mongo_id") as [Hid|_]; [contradiction|].
      simpl. rewrite !update_from_form_untouched.
      * unfold getattr, setattr. simpl. rewrite !lookup_insert_eq. reflexivity.
      * intros f Hf Heq. exfalso. apply Hrest. rewrite <- Heq.
        apply list_elem_of_fmap. exists f. split; [reflexivity|exact Hf].
      * intros f Hf Heq. exfalso. apply Hrest. rewrite <- Heq.
        apply list_elem_of_fmap. exists f. split; [reflexivity|exact Hf].
Qed.

(** X17. Updating from the same form twice is updating from it once; and
    updating from two forms in a row is updating from the fields of the
    first followed by those of the second. *)
Theorem update_from_form_idempotent model_instance form (more : list BoundField) :
  update_from_form (update_from_form model_instance form) form
  = update_from_form model_instance form
  /\ update_from_form (update_from_form model_instance form) more
     = update_from_form model_instance (form ++ more)%list.
Proof.
  split.
  - assert (Hattrs : forall a,
      getattr (update_from_form (update_from_form model_instance form) form) a
      = getattr (update_from_form model_instance form) a).
    { intros a. destruct (decide (a ∈ map name form /\ a <> "mongo_id")) as [[Hin Hne]|Hno].
      - apply update_from_form_written; assumption.
      - apply update_from_form_untouched. intros f Hf Heq.
        destruct (decide (a = "mongo_id")) as [Hid|Hid]; [exact Hid|].
        exfalso. apply Hno. split; [|exact Hid]. rewrite <- Heq.
        apply list_elem_of_fmap. exists f. split; [reflexivity|exact Hf]. }
    pose proof (update_from_form_class form (update_from_form model_instance form)) as Hcls.
    destruct (update_from_form (update_from_form model_instance form) form) as [c1 a1].
    destruct (update_from_form model_instance form) as [c2 a2].
    simpl in *. subst c1. f_equal. apply map_eq. exact Hattrs.
  - revert model_instance. induction form as [|field rest IH]; intros model_instance; simpl.
    + reflexivity.
    + destruct (negb (String.eqb (name field) "mongo_id")); apply IH.
Qed.

Lemma filter_filter_same {A} (p : A -> bool) (l : list A) :
  List.filter p (List.filter p l) = List.filter p l.
Proof.
  apply filter_keeps_all. intros x Hx.
  apply list_elem_of_In, filter_In in Hx as [_ Hp]. exact Hp.
Qed.

(** X18. What [delete_model_instance] does to the database, for a
    registered class and a key that is an object id: the collection of the
    class loses exactly its documents with that id and keeps the others in
    their order, the other collections are as before, and asking again
    answers [True] again and changes nothing more. *)
Theorem delete_model_instance_effect self (model_name model_key : string)
  (cls : DocumentClass) (oid : ObjectId) db :
  get_model_class self model_name = Some cls ->
  wrap_key model_key = Wrapped oid ->
  let db' := (delete_model_instance (ObjectId:=ObjectId) self model_name model_key db).2 in
  collection db' cls
    = List.filter (fun doc => negb (instance_has_id oid doc)) (collection db cls)
  /\ (forall doc, doc ∈ collection db' cls -> instance_has_id oid doc = false)
  /\ (forall other, doc_name other <> doc_name cls ->
        collection db' other = collection db other)
  /\ delete_model_instance (ObjectId:=ObjectId) self model_name model_key db'
     = (Ok true, db').
Proof.
  intros Hcls Hwrap db'. subst db'. unfold delete_model_instance.
  rewrite Hcls, Hwrap. simpl.
  assert (Hcol : collection (remove_by_id cls oid db) cls
                 = List.filter (fun doc => negb (instance_has_id oid doc))
                               (collection db cls)).
  { unfold collection at 1. simpl. rewrite lookup_insert_eq. reflexivity. }
  split; [exact Hcol|]. split; [|split].
  - intros doc Hdoc. rewrite Hcol in Hdoc.
    apply list_elem_of_In, filter_In in Hdoc as [_ Hp].
    apply negb_true_iff in Hp. exact Hp.
  - intros other Hother. unfold collection. simpl.
    rewrite lookup_insert_ne by congruence. reflexivity.
  - f_equal. unfold remove_by_id at 1. rewrite Hcol, filter_filter_same.
    unfold remove_by_id. simpl. rewrite insert_insert_eq. reflexivity.
Qed.

(** X19. How [find_model_instance] ends for a registered class: with the
    instance when exactly one document of the collection has the object id
    of the key; with the [BadResultException] of [.one()], not with
    [None], when no document has it, and also when several have; and with
    [InvalidId] when the key is no object id. *)
Theorem find_model_instance_outcome self db (model_name model_key : string)
  (cls : DocumentClass) :
  get_model_class self model_name = Some cls ->
  (forall oid, wrap_key model_key = Wrapped oid ->
     let matching := List.filter (instance_has_id oid) (collection db cls) in
     (forall doc, matching = [doc] ->
        find_model_instance (ObjectId:=ObjectId) self db model_name model_key = Found doc)
     /\ (matching = [] ->
         find_model_instance (ObjectId:=ObjectId) self db model_name model_key
         = BadResultException)
     /\ (forall a b rest, matching = a :: b :: rest ->
           find_model_instance (ObjectId:=ObjectId) self db model_name model_key
           = BadResultException))
  /\ (wrap_key (ObjectId:=ObjectId) model_key = InvalidId ->
      find_model_instance (ObjectId:=ObjectId) self db model_name model_key
      = FindInvalidId).
Proof.
  intros Hcls. unfold find_model_instance. rewrite Hcls. simpl. split.
  - intros oid ->. unfold ma_one, ma_all, ma_filter_id. simpl.
    split; [intros doc ->; reflexivity|].
    split; [intros ->; reflexivity|intros a b rest ->; reflexivity].
  - intros ->. reflexivity.
Qed.

End MoreDatastore.

(** * The further properties at work on the examples *)

(** X1 on the test application: [Teacher] is registered as found in the
    iterable, and the name of [Student] is registered. *)
Lemma discover_registers_declarative_classes_witness :
  discover test_models !! "Teacher" = Some Teacher
  /\ (is_declarative Teacher = true /\ "Teacher" <> "Base"
      /\ Teacher ∈ [Base; Teacher; Student] /\ __name__ Teacher = "Teacher")
  /\ Student ∈ [Base; Teacher; Student]
  /\ is_declarative Student = true
  /\ __name__ Student <> "Base"
  /\ is_Some (discover test_models !! __name__ Student).
Proof.
  assert (Hreg : discover test_models !! "Teacher" = Some Teacher)
    by (vm_compute; reflexivity).
  assert (Hin : Student ∈ [Base; Teacher; Student]) by listed.
  assert (Hname : __name__ Student <> "Base")
    by (intros Heq; vm_compute in Heq; discriminate Heq).
  destruct (discover_registers_declarative_classes test_models) as [Hfrom Hto].
  split; [exact Hreg|]. split; [exact (Hfrom _ _ Hreg)|]. split; [exact Hin|].
  split; [reflexivity|]. split; [exact Hname|].
  exact (Hto Student Hin eq_refl Hname).
Defined.

(** X2 on the test application: a form given for [Teacher] replaces the
    generated one, [Student] keeps the generated one, and a form given for
    [Course], which is not registered, is ignored. *)
Lemma build_form_dict_lookup_witness :
  let given : gmap string (list (string * bool)) :=
    <["Teacher" := [("full_name", true)]]> (<["Course" := [("subject", true)]]> ∅) in
  discover test_models <> ∅
  /\ exists fd,
       build_form_dict (Form:=list SimpleField) (discover test_models) (Some given) true
       = Some fd
       /\ fd !! "Teacher" = Some [("full_name", true)]
       /\ fd !! "Student" = Some [("name", true)]
       /\ fd !! "Course" = None.
Proof.
  cbv zeta.
  assert (Hne : discover test_models <> ∅).
  { intros Heq.
    assert (Hnone : discover test_models !! "Teacher" = None)
      by (rewrite Heq; apply lookup_empty).
    vm_compute in Hnone. discriminate Hnone. }
  split; [exact Hne|].
  destruct (build_form_dict_lookup (Form:=list SimpleField) (discover test_models)
              (Some (<["Teacher" := [("full_name", true)]]>
                       (<["Course" := [("subject", true)]]> ∅))) true) as [_ Hsome].
  destruct (Hsome Hne) as (fd & Hfd & Hlookup).
  exists fd. split; [exact Hfd|]. rewrite !Hlookup.
  repeat split; vm_compute; reflexivity.
Defined.

(** X3 on the test application: posting a name to the edit view of student
    2 redirects and keeps three students; posting an empty name leaves the
    session alone. *)
Lemma edit_post_saves_or_rerenders_witness :
  let fd : gmap string (list (string * bool)) := <["Student" := [("name", true)]]> ∅ in
  let good := request POST [] [("name", "Michael")] in
  let bad := request POST [] [("name", "")] in
  let mike := row "Student" 2 "Mike" in
  discover test_models !! "Student" = Some Student
  /\ fd !! "Student" = Some [("name", true)]
  /\ List.filter (row_matches (Sess:=ListSession) "id" "2") (session_rows test_session Student)
     = [mike]
  /\ (edit (Field:=SimpleField) (discover test_models) (Some fd) "Student" "2" good
        test_world).1
     = Ok (Redirect (url_for ".list_view" [("model_name", "Student")]))
  /\ session_rows
       (db_session (edit (Field:=SimpleField) (discover test_models) (Some fd) "Student" "2"
                      good test_world).2) Student
     = [row "Student" 1 "Stewart"; row "Student" 2 "Michael"; row "Student" 3 "Jason"]
  /\ db_session (edit (Field:=SimpleField) (discover test_models) (Some fd) "Student" "2"
                   bad test_world).2
     = test_session.
Proof.
  cbv zeta.
  assert (Hreg : discover test_models !! "Student" = Some Student)
    by (vm_compute; reflexivity).
  assert (Hform : (<["Student" := [("name", true)]]> ∅ : gmap string (list (string * bool)))
                    !! "Student" = Some [("name", true)]) by apply lookup_insert_eq.
  assert (Hone : List.filter (row_matches (Sess:=ListSession) "id" "2")
                   (session_rows test_session Student) = [row "Student" 2 "Mike"])
    by (vm_compute; reflexivity).
  split; [exact Hreg|]. split; [exact Hform|]. split; [exact Hone|].
  pose proof (fun req =>
                edit_post_saves_or_rerenders (Form:=list SimpleField) (Field:=SimpleField)
                  (discover test_models) _ "Student" "2" Student [("name", true)]
                  (row "Student" 2 "Mike") req test_world Hreg Hform) as Hedit.
  destruct (Hedit (request POST [] [("name", "Michael")]) Hone eq_refl) as [Hok _].
  destruct (Hedit (request POST [] [("name", "")]) Hone eq_refl) as [_ Hfail].
  rewrite Hok by (vm_compute; reflexivity).
  rewrite Hfail by (vm_compute; reflexivity).
  split; [reflexivity|]. split; [vm_compute; reflexivity|reflexivity].
Defined.

(** X4 on the test application: the edit page of student 2, and the message
    for student 9. *)
Lemma edit_get_renders_or_reports_witness :
  let fd : gmap string (list (string * bool)) := <["Student" := [("name", true)]]> ∅ in
  let req := request GET [] [] in
  discover test_models !! "Student" = Some Student
  /\ fd !! "Student" = Some [("name", true)]
  /\ List.filter (row_matches (Sess:=ListSession) "id" "2") (session_rows test_session Student)
     = [row "Student" 2 "Mike"]
  /\ List.filter (row_matches (Sess:=ListSession) "id" "9") (session_rows test_session Student)
     = []
  /\ method req = GET
  /\ context_get "form"
       match (edit (Field:=SimpleField) (discover test_models) (Some fd) "Student" "2" req
                test_world).1 with
       | Ok (Template _ context) => context
       | _ => []
       end
     = Some (CtxForm [{| sf_name := "name"; sf_required := true; sf_data := Some "Mike";
                         sf_errors := []; sf_file := false |}])
  /\ (edit (Field:=SimpleField) (discover test_models) (Some fd) "Student" "9" req
        test_world).1
     = Ok (Body "Student not found: 9").
Proof.
  cbv zeta.
  assert (Hreg : discover test_models !! "Student" = Some Student)
    by (vm_compute; reflexivity).
  assert (Hform : (<["Student" := [("name", true)]]> ∅ : gmap string (list (string * bool)))
                    !! "Student" = Some [("name", true)]) by apply lookup_insert_eq.
  assert (Hone : List.filter (row_matches (Sess:=ListSession) "id" "2")
                   (session_rows test_session Student) = [row "Student" 2 "Mike"])
    by (vm_compute; reflexivity).
  assert (Hnone : List.filter (row_matches (Sess:=ListSession) "id" "9")
                    (session_rows test_session Student) = [])
    by (vm_compute; reflexivity).
  split; [exact Hreg|]. split; [exact Hform|]. split; [exact Hone|]. split; [exact Hnone|].
  split; [reflexivity|].
  destruct (edit_get_renders_or_reports (Form:=list SimpleField) (Field:=SimpleField) (discover test_models) _
              "Student" "2" Student _ (request GET [] []) test_world Hreg Hform)
    as [Hget _].
  destruct (edit_get_renders_or_reports (Form:=list SimpleField) (Field:=SimpleField) (discover test_models) _
              "Student" "9" Student _ (request GET [] []) test_world Hreg Hform)
    as [_ Hmiss].
  rewrite (Hget _ Hone eq_refl), (Hmiss Hnone).
  split; [vm_compute; reflexivity|reflexivity].
Defined.

(** X5 on a session where two students have the key 7. *)
Lemma several_rows_raise_witness :
  let fd : gmap string (list (string * bool)) := <["Student" := [("name", true)]]> ∅ in
  let twins :=
    {| db_session := {| stored := [row "Student" 7 "Castor"; row "Student" 7 "Pollux"];
                        pending_new := []; pending_deleted := [] |};
       db_calls := []; flashes := [] |} in
  let req := request GET [] [] in
  discover test_models !! "Student" = Some Student
  /\ fd !! "Student" = Some [("name", true)]
  /\ List.filter (row_matches (Sess:=ListSession) "id" "7")
       (session_rows (db_session twins) Student)
     = [row "Student" 7 "Castor"; row "Student" 7 "Pollux"]
  /\ (delete (Form:=list SimpleField) (Field:=SimpleField) (discover test_models)
        "Student" "7" req twins).1 = Raise MultipleResultsFound
  /\ db_session (delete (Form:=list SimpleField) (Field:=SimpleField) (discover test_models)
                   "Student" "7" req twins).2 = db_session twins
  /\ (edit (Field:=SimpleField) (discover test_models) (Some fd) "Student" "7" req twins).1
     = Raise MultipleResultsFound.
Proof.
  cbv zeta.
  assert (Hreg : discover test_models !! "Student" = Some Student)
    by (vm_compute; reflexivity).
  assert (Hform : (<["Student" := [("name", true)]]> ∅ : gmap string (list (string * bool)))
                    !! "Student" = Some [("name", true)]) by apply lookup_insert_eq.
  split; [exact Hreg|]. split; [exact Hform|]. split; [vm_compute; reflexivity|].
  pose proof (several_rows_raise (Form:=list SimpleField) (Field:=SimpleField)
                (discover test_models) _
                "Student" "7" Student _ (row "Student" 7 "Castor") (row "Student" 7 "Pollux") []
                (request GET [] [])
                {| db_session := {| stored := [row "Student" 7 "Castor";
                                               row "Student" 7 "Pollux"];
                                    pending_new := []; pending_deleted := [] |};
                   db_calls := []; flashes := [] |}
                Hreg Hform) as Hraise.
  destruct (Hraise ltac:(vm_compute; reflexivity)) as [Hdel Hedit].
  rewrite Hdel, Hedit. repeat split.
Defined.

(** X6 on the test application: a HEAD request to the add view and a GET
    request to the edit view leave the session as it is. *)
Lemma reading_views_only_query_witness :
  let fd : gmap string (list (string * bool)) := <["Student" := [("name", true)]]> ∅ in
  method (request HEAD [] []) <> POST
  /\ method (request GET [] []) <> POST
  /\ db_session (add (Field:=SimpleField) (discover test_models) (Some fd) "Student"
                   (request HEAD [] []) test_world).2 = test_session
  /\ db_session (edit (Field:=SimpleField) (discover test_models) (Some fd) "Student" "2"
                   (request GET [] []) test_world).2 = test_session
  /\ db_session (list_view (Form:=list SimpleField) (Field:=SimpleField)
                   (discover test_models) 2 "Student" (request GET [("page", "x")] [])
                   test_world).2 = test_session.
Proof.
  cbv zeta.
  assert (Hhead : method (request HEAD [] []) <> POST) by discriminate.
  assert (Hget : method (request GET [] []) <> POST) by discriminate.
  split; [exact Hhead|]. split; [exact Hget|].
  destruct (reading_views_only_query (Field:=SimpleField) (discover test_models)
              (Some (<["Student" := [("name", true)]]> ∅)) 2 "Student" "2"
              (request HEAD [] []) test_world) as (_ & _ & Hnopost).
  destruct (Hnopost Hhead) as [[Hadd _] _].
  destruct (reading_views_only_query (Field:=SimpleField) (discover test_models)
              (Some (<["Student" := [("name", true)]]> ∅)) 2 "Student" "2"
              (request GET [] []) test_world) as (_ & _ & Hnopost').
  destruct (Hnopost' Hget) as [_ [Hedit _]].
  destruct (reading_views_only_query (Form:=list SimpleField) (Field:=SimpleField)
              (discover test_models)
              (Some (<["Student" := [("name", true)]]> ∅)) 2 "Student" "2"
              (request GET [("page", "x")] []) test_world) as (_ & [Hlist _] & _).
  split; [exact Hadd|]. split; [exact Hedit|exact Hlist].
Defined.

(** X7 on the test application: no page asked for gives the first two
    students; the page [x], which the interpreter of the examples refuses
    with [ValueError], makes the view raise it. *)
Lemma list_view_page_argument_witness :
  discover test_models !! "Student" = Some Student
  /\ (forall v, ("page", v) ∉ args (request GET [] []))
  /\ py_int (multidict_get "page" "1" (args (request GET [("page", "x")] [])))
     = Raise ValueError
  /\ listed_instances
       (list_view (Form:=list SimpleField) (Field:=SimpleField) (discover test_models) 2
          "Student" (request GET [] []) test_world).1
     = [row "Student" 1 "Stewart"; row "Student" 2 "Mike"]
  /\ (list_view (Form:=list SimpleField) (Field:=SimpleField) (discover test_models) 2
        "Student" (request GET [("page", "x")] []) test_world).1
     = Raise ValueError.
Proof.
  assert (Hreg : discover test_models !! "Student" = Some Student)
    by (vm_compute; reflexivity).
  assert (Habs : forall v, ("page", v) ∉ args (request GET [] []))
    by (intros v; apply not_elem_of_nil).
  assert (Hbad : py_int (multidict_get "page" "1" (args (request GET [("page", "x")] [])))
                 = Raise ValueError) by (vm_compute; reflexivity).
  split; [exact Hreg|]. split; [exact Habs|]. split; [exact Hbad|].
  destruct (list_view_page_argument (Form:=list SimpleField) (Field:=SimpleField)
              (discover test_models) 2 "Student" Student (request GET [] []) test_world Hreg)
    as [Hfirst _].
  destruct (list_view_page_argument (Form:=list SimpleField) (Field:=SimpleField)
              (discover test_models) 2 "Student" Student (request GET [("page", "x")] [])
              test_world Hreg) as [_ Hraise].
  rewrite (Hfirst Habs), (Hraise _ Hbad).
  split; [vm_compute; reflexivity|reflexivity].
Defined.

(** X8 on the test application: pages 1 and 2, two to a page, list the
    three students in order. *)
Lemma pages_tile_the_rows_witness :
  let reqs := [request GET [("page", "1")] []; request GET [("page", "2")] []] in
  discover test_models !! "Student" = Some Student
  /\ 0 <= 2
  /\ (forall (i : nat) req, reqs !! i = Some req ->
        py_int (multidict_get "page" "1" (args req)) = Ok (Z.of_nat i + 1))
  /\ concat (map (fun req =>
                    listed_instances
                      (list_view (Form:=list SimpleField) (Field:=SimpleField)
                         (discover test_models) 2 "Student" req test_world).1) reqs)
     = [row "Student" 1 "Stewart"; row "Student" 2 "Mike"; row "Student" 3 "Jason"].
Proof.
  cbv zeta.
  assert (Hreg : discover test_models !! "Student" = Some Student)
    by (vm_compute; reflexivity).
  assert (Hpages : forall (i : nat) req,
            [request GET [("page", "1")] []; request GET [("page", "2")] []] !! i = Some req ->
            py_int (multidict_get "page" "1" (args req)) = Ok (Z.of_nat i + 1)).
  { intros [|[|i]] req Hi; simpl in Hi; [| |discriminate];
      injection Hi as <-; vm_compute; reflexivity. }
  split; [exact Hreg|]. split; [lia|]. split; [exact Hpages|].
  rewrite (pages_tile_the_rows (Form:=list SimpleField) (Field:=SimpleField)
             (discover test_models) 2 "Student" Student test_world _ Hreg ltac:(lia) Hpages).
  vm_compute. reflexivity.
Defined.

(** X11 on examples: a type of [mongoalchemy.fields.fields] is looked up
    under [fields.<name>], one of [mongoalchemy.fields] under its name. *)
Lemma type_string_cut_witness :
  let nested := field_of "mongoalchemy.fields.fields" "StringField" true None None in
  let flat := field_of "mongoalchemy.fields" "StringField" true None None in
  type_module nested = "mongoalchemy.fields." +:+ "fields"
  /\ type_module flat = "mongoalchemy.fields"
  /\ type_string nested = "fields.StringField"
  /\ type_string flat = "StringField".
Proof.
  cbv zeta. split; [reflexivity|]. split; [reflexivity|].
  destruct (type_string_cut
              (field_of "mongoalchemy.fields.fields" "StringField" true None None))
    as (_ & _ & Hsub).
  destruct (type_string_cut (field_of "mongoalchemy.fields" "StringField" true None None))
    as (_ & Hflat & _).
  rewrite (Hsub "fields" eq_refl), (Hflat eq_refl). split; reflexivity.
Defined.

(** X12 on the example: the key of [Person] becomes a disabled text field;
    with a widget among its [field_args], [convert] raises. *)
Lemma object_id_field_is_disabled_witness :
  let key := field_of "mongoalchemy.fields" "ObjectIdField" false None None in
  let with_widget :=
    Some {| fa_validators := None; fa_filters := None; fa_default := None;
            fa_widget := Some (OtherWidget "TextArea"); fa_others := ∅ |} in
  select_converter (ModelConverter None) key = Some conv_ObjectId
  /\ (exists kwargs lists',
        convert (ModelConverter None) Person key None ∅ = (Ok (Some (TextField kwargs)), lists')
        /\ kw_widget kwargs = Some DisabledTextInput
        /\ list_items lists' (kw_validators kwargs) = [Optional])
  /\ (convert (ModelConverter None) Person key with_widget ∅).1 = Raise TypeError.
Proof.
  cbv zeta.
  assert (Hsel : select_converter (ModelConverter None)
                   (field_of "mongoalchemy.fields" "ObjectIdField" false None None)
                 = Some conv_ObjectId) by (vm_compute; reflexivity).
  split; [exact Hsel|].
  destruct (object_id_field_is_disabled (ModelConverter None) Person _ None ∅ Hsel)
    as [Hplain _].
  destruct (object_id_field_is_disabled (ModelConverter None) Person _
              (Some {| fa_validators := None; fa_filters := None; fa_default := None;
                       fa_widget := Some (OtherWidget "TextArea"); fa_others := ∅ |})
              ∅ Hsel)
    as [_ Hraise].
  split.
  - destruct (Hplain eq_refl) as (kwargs & lists' & Hconv & Hwidget & Hvalidators).
    exists kwargs, lists'. split; [exact Hconv|]. split; [exact Hwidget|].
    rewrite Hvalidators. reflexivity.
  - exact (Hraise _ eq_refl).
Defined.





(** X18 on the example: deleting Bob leaves Ada and Cy, and deleting him
    again changes nothing. *)
Lemma delete_model_instance_effect_witness :
  let bob := "4d5e6f708192a3b4c5d6e7f9" in
  let after := (delete_model_instance (ObjectId:=string) person_store "Person" bob people).2 in
  get_model_class person_store "Person" = Some Person
  /\ wrap_key (ObjectId:=string) bob = Wrapped bob
  /\ collection after Person
     = [person "4d5e6f708192a3b4c5d6e7f8" "Ada"; person "4d5e6f708192a3b4c5d6e7fa" "Cy"]
  /\ delete_model_instance (ObjectId:=string) person_store "Person" bob after
     = (Ok true, after).
Proof.
  cbv zeta.
  assert (Hcls : get_model_class person_store "Person" = Some Person)
    by (vm_compute; reflexivity).
  assert (Hwrap : wrap_key (ObjectId:=string) "4d5e6f708192a3b4c5d6e7f9"
                  = Wrapped "4d5e6f708192a3b4c5d6e7f9") by (vm_compute; reflexivity).
  split; [exact Hcls|]. split; [exact Hwrap|].
  destruct (delete_model_instance_effect (ObjectId:=string) person_store "Person"
              "4d5e6f708192a3b4c5d6e7f9" Person _ people Hcls Hwrap)
    as (Hcol & _ & _ & Hagain).
  split; [rewrite Hcol; vm_compute; reflexivity|exact Hagain].
Defined.

(** X19 on the example: Ada is found by her id; an id that nobody has ends
    in [BadResultException]; a key that is no object id in [InvalidId]. *)
Lemma find_model_instance_outcome_witness :
  let ada := "4d5e6f708192a3b4c5d6e7f8" in
  let nobody := "4d5e6f708192a3b4c5d6e7f0" in
  get_model_class person_store "Person" = Some Person
  /\ wrap_key (ObjectId:=string) ada = Wrapped ada
  /\ wrap_key (ObjectId:=string) nobody = Wrapped nobody
  /\ wrap_key (ObjectId:=string) "2" = InvalidId
  /\ List.filter (instance_has_id ada) (collection people Person) = [person ada "Ada"]
  /\ List.filter (instance_has_id nobody) (collection people Person) = []
  /\ find_model_instance (ObjectId:=string) person_store people "Person" ada
     = Found (person ada "Ada")
  /\ find_model_instance (ObjectId:=string) person_store people "Person" nobody
     = BadResultException
  /\ find_model_instance (ObjectId:=string) person_store people "Person" "2"
     = FindInvalidId.
Proof.
  cbv zeta.
  assert (Hcls : get_model_class person_store "Person" = Some Person)
    by (vm_compute; reflexivity).
  assert (Hada : wrap_key (ObjectId:=string) "4d5e6f708192a3b4c5d6e7f8"
                 = Wrapped "4d5e6f708192a3b4c5d6e7f8") by (vm_compute; reflexivity).
  assert (Hnobody : wrap_key (ObjectId:=string) "4d5e6f708192a3b4c5d6e7f0"
                    = Wrapped "4d5e6f708192a3b4c5d6e7f0") by (vm_compute; reflexivity).
  assert (Hbad : wrap_key (ObjectId:=string) "2" = InvalidId) by (vm_compute; reflexivity).
  assert (Hone : List.filter (instance_has_id "4d5e6f708192a3b4c5d6e7f8")
                   (collection people Person)
                 = [person "4d5e6f708192a3b4c5d6e7f8" "Ada"]) by (vm_compute; reflexivity).
  assert (Hnone : List.filter (instance_has_id "4d5e6f708192a3b4c5d6e7f0")
                    (collection people Person) = []) by (vm_compute; reflexivity).
  split; [exact Hcls|]. split; [exact Hada|]. split; [exact Hnobody|]. split; [exact Hbad|].
  split; [exact Hone|]. split; [exact Hnone|].
  destruct (find_model_instance_outcome (ObjectId:=string) person_store people "Person"
              "4d5e6f708192a3b4c5d6e7f8" Person Hcls) as [Hfound _].
  destruct (Hfound _ Hada) as (Hfind & _ & _).
  destruct (find_model_instance_outcome (ObjectId:=string) person_store people "Person"
              "4d5e6f708192a3b4c5d6e7f0" Person Hcls) as [Hmissing _].
  destruct (Hmissing _ Hnobody) as (_ & Hnofind & _).
  destruct (find_model_instance_outcome (ObjectId:=string) person_store people "Person"
              "2" Person Hcls) as [_ Hinvalid].
  split; [exact (Hfind _ Hone)|]. split; [exact (Hnofind Hnone)|exact (Hinvalid Hbad)].
Defined.
